(** * Booking and payment core of Esport Coach Connect

    A shallow embedding of the two Express services that own the booking
    life cycle:

    - [services/session-service/src/main.js]  (module [SessionService])
    - the payment service                       (module [PaymentService])

    Both services talk to the same PostgreSQL database ([scripts/init-db.sql]),
    which is modelled by the record [Db]: every table with a primary key is a
    finite map from the key to the remaining columns.  A request handler is a
    function from its inputs (request, clock, generated uuid) and the database
    to an [Outcome]: the HTTP response, the database after the handler, and
    the effects it performed (console events, calls to the payment provider).

    Conventions of the model:
    - instants (TIMESTAMPTZ, JS [Date]) are integers, milliseconds since the
      epoch; an INTERVAL built from ["<n> minutes"] is the integer [n];
    - DECIMAL amounts and the JS number [hoursUntilStart] are rationals; the
      comparisons the code makes on them ([< 2], [>= 24]) are exact on the
      quotients of millisecond differences, so nothing is lost to rounding;
    - stored identifiers are uuid values, written the way PostgreSQL prints
      them; the texts that arrive in a path are read by [uuid_in] (module
      [Wire]), and the identifiers of a request body are ordinary when they
      are written that way ([ordinary_request]);
    - a statement that violates a constraint of the schema throws, and the
      handler's [catch] turns that into a 500 response. *)

From Stdlib Require Import ZArith QArith Ascii String List Bool Lia.
From stdpp Require Import gmap strings list fin_maps pretty.

Local Open Scope Z_scope.
Local Open Scope string_scope.

(** ** Basic data *)

Abbreviation Id := string.
Abbreviation Instant := Z.

(** CHECK (status IN ('pending','confirmed','in_progress','completed','cancelled')) *)
Inductive BookingStatus :=
  | pending | confirmed | in_progress | completed | cancelled.

(** CHECK (status IN ('requires_action','authorized','captured','refunded')) *)
Inductive PaymentStatus :=
  | requires_action | authorized | captured | refunded.

#[global] Instance BookingStatus_eq_dec : EqDecision BookingStatus.
Proof. solve_decision. Defined.

#[global] Instance PaymentStatus_eq_dec : EqDecision PaymentStatus.
Proof. solve_decision. Defined.

(** The text of a booking status, as it travels in a request body. *)
Definition status_of_string (s : string) : option BookingStatus :=
  if String.eqb s "pending" then Some pending
  else if String.eqb s "confirmed" then Some confirmed
  else if String.eqb s "in_progress" then Some in_progress
  else if String.eqb s "completed" then Some completed
  else if String.eqb s "cancelled" then Some cancelled
  else None.

(** JS truthiness of an optional string field: [undefined] and [""] are falsy. *)
Definition truthy (f : option string) : bool :=
  match f with
  | Some s => negb (String.eqb s "")
  | None => false
  end.

(** [Array.prototype.includes] on an array of strings. *)
Definition includes (l : list string) (s : string) : bool :=
  existsb (String.eqb s) l.

Definition Qltb (x y : Q) : bool := negb (Qle_bool y x).

(** ** The database *)

Module Booking.
Record t := mk {
  player_id : Id;
  coach_id : Id;
  starts_at : Instant;
  duration : Z;                 (* minutes *)
  status : BookingStatus;
  timezone : string;
  created_at : Instant;
  updated_at : Instant
}.

(** [starts_at + duration] *)
Definition ends_at (b : t) : Instant := starts_at b + duration b * 60000.

Definition set_status (s : BookingStatus) (now : Instant) (b : t) : t :=
  {| player_id := player_id b; coach_id := coach_id b;
     starts_at := starts_at b; duration := duration b;
     status := s; timezone := timezone b;
     created_at := created_at b; updated_at := now |}.
End Booking.

Module PaymentIntent.
Record t := mk {
  booking_id : Id;
  provider : string;
  status : PaymentStatus;
  amount : Q;
  currency : string;
  provider_intent_id : string;
  created_at : Instant;
  updated_at : Instant
}.

Definition set_status (s : PaymentStatus) (now : Instant) (p : t) : t :=
  {| booking_id := booking_id p; provider := provider p;
     status := s; amount := amount p; currency := currency p;
     provider_intent_id := provider_intent_id p;
     created_at := created_at p; updated_at := now |}.
End PaymentIntent.

(** Of [users] and [coaches] only the primary keys matter to the handlers
    below (they are the targets of the foreign keys of [bookings]). *)
Record Db := mkDb {
  users : gset Id;
  coaches : gset Id;
  bookings : gmap Id Booking.t;
  payment_intents : gmap Id PaymentIntent.t
}.

Definition with_bookings (db : Db) (bs : gmap Id Booking.t) : Db :=
  {| users := users db; coaches := coaches db;
     bookings := bs; payment_intents := payment_intents db |}.

Definition with_payment_intents (db : Db) (ps : gmap Id PaymentIntent.t) : Db :=
  {| users := users db; coaches := coaches db;
     bookings := bookings db; payment_intents := ps |}.

Inductive DbError := UniqueViolation | ForeignKeyViolation.

(** [status NOT IN ('cancelled', 'completed')] *)
Definition active (s : BookingStatus) : Prop := s ∉ [cancelled; completed].

#[global] Instance active_dec s : Decision (active s).
Proof. unfold active. apply _. Defined.

(** The WHERE clause of the conflict query of POST /bookings:
    [coach_id = $1 AND starts_at <= $2 AND (starts_at + duration) > $2
     AND status NOT IN ('cancelled', 'completed')], at the uuid [coachId]. *)
Definition conflict_where (coachId : Id) (startsAt : Instant) (b : Booking.t) : Prop :=
  Booking.coach_id b = coachId
  ∧ Booking.starts_at b <= startsAt
  ∧ Booking.ends_at b > startsAt
  ∧ active (Booking.status b).

#[global] Instance conflict_where_dec c s b : Decision (conflict_where c s b).
Proof. unfold conflict_where. apply _. Defined.

(** [SELECT id FROM bookings WHERE ...]: the rows of the conflict query. *)
Definition select_conflicts (db : Db) (coachId : Id) (startsAt : Instant)
  : list (Id * Booking.t) :=
  map_to_list (filter (λ kb, conflict_where coachId startsAt kb.2) (bookings db)).

(** [INSERT INTO bookings ... RETURNING *]: the primary key must be fresh and
    the two foreign keys must point at existing rows.  The values of the row
    are taken to be ones its columns store as they are; [ordinary_request]
    below names such values. *)
Definition insert_booking (db : Db) (id : Id) (b : Booking.t) : DbError + Db :=
  if decide (is_Some (bookings db !! id)) then inl UniqueViolation
  else if decide (Booking.player_id b ∈ users db ∧ Booking.coach_id b ∈ coaches db)
  then inr (with_bookings db (<[id := b]> (bookings db)))
  else inl ForeignKeyViolation.

(** [UPDATE bookings SET status = $1, updated_at = CURRENT_TIMESTAMP
     WHERE id = $2 RETURNING *] *)
Definition update_booking_status
  (db : Db) (id : Id) (s : BookingStatus) (now : Instant) : Db * option Booking.t :=
  (with_bookings db (alter (Booking.set_status s now) id (bookings db)),
   Booking.set_status s now <$> bookings db !! id).

(** [UPDATE payment_intents SET status = ..., updated_at = CURRENT_TIMESTAMP
     WHERE id = $1] *)
Definition update_payment_status
  (db : Db) (id : Id) (s : PaymentStatus) (now : Instant) : Db :=
  with_payment_intents db
    (alter (PaymentIntent.set_status s now) id (payment_intents db)).

(** ** Responses and effects *)

Inductive Body :=
  | JError (error : string)
  | JCreated (bookingId : Id) (status : BookingStatus) (booking : Booking.t)
  | JBooking (id : Id) (booking : Booking.t)
  | JCancelled (message : string) (id : Id) (booking : Booking.t) (refundEligible : bool)
  | JPayment (status : string) (message : string)
  | JRefund (message : string) (refundAmount : Q).

Record Response := mkResponse { code : Z; body : Body }.

Inductive Effect :=
  | BookingCreated (bookingId playerId coachId : Id) (startsAt : Instant)
  | BookingStatusChanged (bookingId : Id) (status : BookingStatus) (userId : option Id)
  | BookingCancelled (bookingId : Id) (userId : option Id) (reason : option string)
                     (hoursUntilStart : Q)
  | PaymentAuthorized (paymentId bookingId : Id)
  | PaymentCaptured (paymentId bookingId : Id) (amount : Q)
  | PaymentRefunded (paymentId bookingId : Id) (refundAmount : Q) (reason : option string)
  | StripeConfirm (providerIntentId : string)
  | StripeCapture (providerIntentId : string)
  | ConsoleError (what : string).

Record Outcome := mkOutcome {
  response : Response;
  db_after : Db;
  effects : list Effect
}.

(** [return res.status(c).json({ error })]: nothing written, nothing logged. *)
Definition reject (db : Db) (c : Z) (error : string) : Outcome :=
  mkOutcome (mkResponse c (JError error)) db [].

(** The [catch] branch of a handler. *)
Definition failed (db : Db) (what error : string) : Outcome :=
  mkOutcome (mkResponse 500 (JError error)) db [ConsoleError what].

(** ** Session service

    The handlers at the uuid their path denotes; [Wire], further down, has
    them with the text of the path as it arrives. *)

Module SessionService.

Record CreateBooking := mkCreateBooking {
  playerId : option Id;
  coachId : option Id;
  startsAt : option Instant;
  durationMinutes : option Z;
  timezone : option string
}.

(** The handler of POST /bookings up to and including the conflict query:
    either it has already answered, or it goes on to the INSERT with the
    fields it destructured from the body. *)
Inductive Checked :=
  | Answered (o : Outcome)
  | ToInsert (playerId coachId : Id) (startsAt : Instant)
             (durationMinutes : Z) (timezone : string).

Definition post_bookings_check (req : CreateBooking) (db : Db) : Checked :=
  let durationMinutes := default 60 (durationMinutes req) in
  let timezone := default "UTC" (timezone req) in
  if negb (truthy (playerId req)) || negb (truthy (coachId req))
     || negb (bool_decide (is_Some (startsAt req)))
  then Answered (reject db 400 "Player ID, Coach ID, and start time are required")
  else
    match playerId req, coachId req, startsAt req with
    | Some playerId, Some coachId, Some startsAt =>
        let conflictCheck := select_conflicts db coachId startsAt in
        if bool_decide (0 < length conflictCheck)%nat
        then Answered (reject db 409 "Time slot already booked")
        else ToInsert playerId coachId startsAt durationMinutes timezone
    | _, _, _ =>
        (* not reached: the three fields are truthy here *)
        Answered (reject db 400 "Player ID, Coach ID, and start time are required")
    end.

(** The rest of the handler: the INSERT and the 201 response. *)
Definition post_bookings_insert
  (bookingId : Id) (now : Instant)
  (playerId coachId : Id) (startsAt : Instant) (durationMinutes : Z)
  (timezone : string) (db : Db) : Outcome :=
  let row := Booking.mk playerId coachId startsAt durationMinutes
                        confirmed timezone now now in
  match insert_booking db bookingId row with
  | inr db' =>
      mkOutcome (mkResponse 201 (JCreated bookingId (Booking.status row) row))
                db' [BookingCreated bookingId playerId coachId startsAt]
  | inl _ => failed db "Create booking error:" "Failed to create booking"
  end.

(** POST /bookings, run without interruption.  [bookingId] is the value of
    [uuidv4()], [now] the database clock. *)
Definition post_bookings
  (bookingId : Id) (now : Instant) (req : CreateBooking) (db : Db) : Outcome :=
  match post_bookings_check req db with
  | Answered o => o
  | ToInsert p c s d tz => post_bookings_insert bookingId now p c s d tz db
  end.

Record UpdateStatus := mkUpdateStatus {
  us_status : option string;
  us_userId : option Id
}.

Definition validStatuses : list string :=
  ["confirmed"; "in_progress"; "completed"; "cancelled"].

(** PUT /bookings/:id/status *)
Definition put_booking_status
  (id : Id) (now : Instant) (req : UpdateStatus) (db : Db) : Outcome :=
  match us_status req with
  | None => reject db 400 "Status is required"
  | Some status =>
      if negb (truthy (Some status)) then reject db 400 "Status is required"
      else if negb (includes validStatuses status)
      then reject db 400 "Invalid status"
      else
        match status_of_string status with
        | None =>
            (* the CHECK constraint of the column would refuse the value *)
            failed db "Update booking status error:" "Failed to update booking status"
        | Some s =>
            match update_booking_status db id s now with
            | (_, None) => reject db 404 "Booking not found"
            | (db', Some row) =>
                mkOutcome (mkResponse 200 (JBooking id row)) db'
                          [BookingStatusChanged id s (us_userId req)]
            end
        end
  end.

Record Cancel := mkCancel {
  c_userId : option Id;
  c_reason : option string
}.

(** [(startsAt - now) / (1000 * 60 * 60)] *)
Definition hoursUntilStart (startsAt now : Instant) : Q :=
  (inject_Z (startsAt - now) / inject_Z (1000 * 60 * 60))%Q.

(** POST /bookings/:id/cancel *)
Definition post_booking_cancel
  (id : Id) (now : Instant) (req : Cancel) (db : Db) : Outcome :=
  match bookings db !! id with
  | None => reject db 404 "Booking not found"
  | Some bookingData =>
      let h := hoursUntilStart (Booking.starts_at bookingData) now in
      if Qltb h 2 && bool_decide (Booking.status bookingData = confirmed)
      then reject db 400 "Cannot cancel booking less than 2 hours before start time"
      else
        match update_booking_status db id cancelled now with
        | (db', Some row) =>
            mkOutcome
              (mkResponse 200
                 (JCancelled "Booking cancelled successfully" id row
                             (Qle_bool 24 h)))
              db' [BookingCancelled id (c_userId req) (c_reason req) h]
        | (_, None) =>
            (* [result.rows[0]] is undefined: cannot happen after the SELECT *)
            failed db "Cancel booking error:" "Failed to cancel booking"
        end
  end.

End SessionService.

(** ** Payment service

    As for the session service, at the uuid the path denotes. *)

Module PaymentService.

(** POST /payment-intents/:id/confirm *)
Definition post_confirm (id : Id) (now : Instant) (db : Db) : Outcome :=
  match payment_intents db !! id with
  | None => reject db 404 "Payment intent not found"
  | Some payment =>
      mkOutcome
        (mkResponse 200 (JPayment "succeeded" "Payment authorized successfully"))
        (update_payment_status db id authorized now)
        [StripeConfirm (PaymentIntent.provider_intent_id payment);
         PaymentAuthorized id (PaymentIntent.booking_id payment)]
  end.

(** POST /payment-intents/:id/capture *)
Definition post_capture (id : Id) (now : Instant) (db : Db) : Outcome :=
  match payment_intents db !! id with
  | None => reject db 404 "Payment intent not found"
  | Some payment =>
      if negb (bool_decide (PaymentIntent.status payment = authorized))
      then reject db 400 "Payment must be authorized before capture"
      else
        mkOutcome
          (mkResponse 200 (JPayment "succeeded" "Payment captured successfully"))
          (update_payment_status db id captured now)
          [StripeCapture (PaymentIntent.provider_intent_id payment);
           PaymentCaptured id (PaymentIntent.booking_id payment)
                           (PaymentIntent.amount payment)]
  end.

Record Refund := mkRefund {
  r_amount : option Q;
  r_reason : option string
}.

(** [amount || payment.amount]: a missing amount and the number 0 are falsy. *)
Definition or_amount (amount : option Q) (stored : Q) : Q :=
  match amount with
  | Some a => if Qeq_bool a 0 then stored else a
  | None => stored
  end.

(** POST /payment-intents/:id/refund *)
Definition post_refund (id : Id) (now : Instant) (req : Refund) (db : Db) : Outcome :=
  match payment_intents db !! id with
  | None => reject db 404 "Payment intent not found"
  | Some payment =>
      if negb (bool_decide (PaymentIntent.status payment = captured))
      then reject db 400 "Only captured payments can be refunded"
      else
        let refundAmount := or_amount (r_amount req) (PaymentIntent.amount payment) in
        mkOutcome
          (mkResponse 200 (JRefund "Refund processed successfully" refundAmount))
          (update_payment_status db id refunded now)
          [PaymentRefunded id (PaymentIntent.booking_id payment)
                           refundAmount (r_reason req)]
  end.

End PaymentService.

(** ** Requests in flight

    The handler of POST /bookings awaits the database twice: once for the
    conflict query and once for the INSERT.  Each statement runs on its own
    (the handler opens no transaction), and between the two the event loop is
    free to run other requests.  A request in flight is therefore a small
    state machine whose steps are the statements it sends. *)

Module InFlight.
Import SessionService.

Inductive Request :=
  | Received (bookingId : Id) (req : CreateBooking)
  | Inserting (bookingId : Id) (playerId coachId : Id) (startsAt : Instant)
              (durationMinutes : Z) (timezone : string)
  | Responded (r : Response).

(** One statement of one request, at database time [now]. *)
Definition step (now : Instant) (t : Request) (db : Db) : Request * Db :=
  match t with
  | Received bookingId req =>
      match post_bookings_check req db with
      | Answered o => (Responded (response o), db_after o)
      | ToInsert p c s d tz => (Inserting bookingId p c s d tz, db)
      end
  | Inserting bookingId p c s d tz =>
      let o := post_bookings_insert bookingId now p c s d tz db in
      (Responded (response o), db_after o)
  | Responded r => (Responded r, db)
  end.

(** A schedule names, statement by statement, the request that runs next
    and the time at which it does. *)
Fixpoint run (sched : list (nat * Instant)) (ts : list Request) (db : Db)
  : list Request * Db :=
  match sched with
  | [] => (ts, db)
  | (i, now) :: sched =>
      match ts !! i with
      | Some t =>
          let '(t', db') := step now t db in
          run sched (<[i := t']> ts) db'
      | None => run sched ts db
      end
  end.

(** The requests that were answered with the given status code. *)
Definition answered (c : Z) (t : Request) : bool :=
  match t with
  | Responded r => bool_decide (code r = c)
  | _ => false
  end.

(** Exactly one request committed (201) and every other one was refused as
    a conflict (409). *)
Definition exactly_one_succeeds (ts : list Request) : Prop :=
  length (filter (λ t, answered 201 t = true) ts) = 1%nat
  ∧ length (filter (λ t, answered 409 t = true) ts) = (length ts - 1)%nat.

End InFlight.

(** ** The conflict test of the specification

    The overlap test in the words of the specification: the requested
    interval [[start, start+duration)] against the interval [[s, e)] of an
    existing booking of the same coach that is neither cancelled nor
    completed. *)

Definition overlaps_spec (start : Instant) (duration : Z) (b : Booking.t) : Prop :=
  start < Booking.ends_at b ∧ Booking.starts_at b < start + duration * 60000.

Definition HasConflict_spec
  (db : Db) (coachId : Id) (start : Instant) (duration : Z) : Prop :=
  ∃ id b, bookings db !! id = Some b
          ∧ Booking.coach_id b = coachId
          ∧ active (Booking.status b)
          ∧ overlaps_spec start duration b.

(** What the handler takes for a conflict: [conflictCheck.rows.length > 0]. *)
Definition reports_conflict (db : Db) (coachId : Id) (startsAt : Instant) : Prop :=
  (0 < length (select_conflicts db coachId startsAt))%nat.

#[global] Instance reports_conflict_dec db c s : Decision (reports_conflict db c s).
Proof. unfold reports_conflict. apply _. Defined.

(** A required field is missing (or empty) in the body of POST /bookings. *)
Definition missing_field (req : SessionService.CreateBooking) : Prop :=
  truthy (SessionService.playerId req) = false
  ∨ truthy (SessionService.coachId req) = false
  ∨ SessionService.startsAt req = None.

Definition required_message : string :=
  "Player ID, Coach ID, and start time are required".

(** ** The vocabulary of the specification

    The notions the specification uses to describe the outcome of a request,
    read on the outcomes and databases of the model. *)

Definition is_provider_call (e : Effect) : bool :=
  match e with
  | StripeConfirm _ | StripeCapture _ => true
  | _ => false
  end.

(** Some payment intent of the booking is authorized. *)
Definition authorized_for (db : Db) (bookingId : Id) : Prop :=
  ∃ pid p, payment_intents db !! pid = Some p
           ∧ PaymentIntent.booking_id p = bookingId
           ∧ PaymentIntent.status p = authorized.

(** A booking is confirmed only when its payment is authorized. *)
Definition confirmed_only_if_authorized (db : Db) : Prop :=
  ∀ id b, bookings db !! id = Some b →
          Booking.status b = confirmed → authorized_for db id.

(** The request is refused as malformed and changes nothing. *)
Definition ErrValidation (db : Db) (o : Outcome) : Prop :=
  code (response o) = 400 ∧ db_after o = db.

(** The transition table of the booking state machine. *)
Inductive transition : BookingStatus → BookingStatus → Prop :=
  | pending_confirmed : transition pending confirmed
  | confirmed_in_progress : transition confirmed in_progress
  | in_progress_completed : transition in_progress completed
  | pending_cancelled : transition pending cancelled
  | confirmed_cancelled : transition confirmed cancelled.

Definition window_message : string :=
  "Cannot cancel booking less than 2 hours before start time".

(** The columns of a payment intent that no status change may touch. *)
Definition fixed_columns (p : PaymentIntent.t) : Id * string * Q * string * string * Instant :=
  (PaymentIntent.booking_id p, PaymentIntent.provider p, PaymentIntent.amount p,
   PaymentIntent.currency p, PaymentIntent.provider_intent_id p,
   PaymentIntent.created_at p).

Definition capture_message : string := "Payment must be authorized before capture".
Definition refund_message : string := "Only captured payments can be refunded".

(** ** Sample data *)

Module Sample.
Definition player : Id := "550e8400-e29b-41d4-a716-446655440002".
Definition coach : Id := "9b2f6c1e-3d4a-4c5b-8e7f-0a1b2c3d4e5f".
Definition booking1 : Id := "11111111-1111-4111-8111-111111111111".
Definition booking2 : Id := "22222222-2222-4222-8222-222222222222".
Definition intent1 : Id := "33333333-3333-4333-8333-333333333333".

(** 2026-01-10T10:00:00Z, and the minutes and hours around it. *)
Definition t10h : Instant := 1768039200000.
Definition minutes (n : Z) : Z := n * 60000.
Definition hours (n : Z) : Z := n * 3600000.

Definition empty : Db := mkDb {[player]} {[coach]} ∅ ∅.

Definition booking_at (start : Instant) (d : Z) (s : BookingStatus) : Booking.t :=
  Booking.mk player coach start d s "UTC" 0 0.

Definition with_booking (start : Instant) (d : Z) (s : BookingStatus) : Db :=
  mkDb {[player]} {[coach]} {[booking1 := booking_at start d s]} ∅.

Definition create (start : Instant) (d : option Z) : SessionService.CreateBooking :=
  SessionService.mkCreateBooking (Some player) (Some coach) (Some start) d None.

Definition intent (s : PaymentStatus) : PaymentIntent.t :=
  PaymentIntent.mk booking1 "stripe" s 50 "USD" "pi_mock_1768000000000" 0 0.

Definition with_intent (s : PaymentStatus) : Db :=
  mkDb {[player]} {[coach]} {[booking1 := booking_at t10h 60 confirmed]}
       {[intent1 := intent s]}.
End Sample.

(** ** The rest of the payment service *)

(** The mock of the Stripe client.  Of the intent object it returns, the
    handlers read [id], [client_secret] and [status]; the [amount] and
    [currency] it echoes are never read and are left out. *)
Module MockStripe.

Record Intent := mkIntent {
  id : string;
  client_secret : string;
  status : string
}.

(** [paymentIntents.create]: the two template strings read [Date.now()]
    one after the other. *)
Definition create (t1 t2 : Instant) : Intent :=
  {| id := "pi_mock_" ++ pretty t1;
     client_secret := "pi_mock_" ++ pretty t2 ++ "_secret";
     status := "requires_payment_method" |}.

End MockStripe.

(** *** Column types of [payment_intents] *)

(** Rounding to the nearest integer, ties away from zero (PostgreSQL
    [numeric]). *)
Definition round_half_away (q : Q) : Z :=
  Z.sgn (Qnum q) * ((2 * Z.abs (Qnum q) + Zpos (Qden q)) / (2 * Zpos (Qden q))).

(** DECIMAL(10,2): the value is rounded to two decimals, and refused when
    the result needs more than eight digits before the point. *)
Definition decimal_10_2 (q : Q) : option Q :=
  let cents := round_half_away (q * 100) in
  if (Z.abs cents <? 10 ^ 10)%Z then Some (cents # 100)%Q else None.

Fixpoint all_spaces (s : string) : bool :=
  match s with
  | EmptyString => true
  | String a s' => Ascii.eqb a " "%char && all_spaces s'
  end.

(** VARCHAR(n) on assignment: a longer string is refused, unless all that
    exceeds [n] characters is spaces, which are cut off.  The strings that
    reach these columns are ASCII, one byte a character. *)
Definition varchar (n : nat) (s : string) : option string :=
  if (String.length s <=? n)%nat then Some s
  else if all_spaces (substring n (String.length s - n) s)
  then Some (substring 0 n s)
  else None.

(** [INSERT INTO payment_intents (id, booking_id, provider, status, amount,
     currency, provider_intent_id) VALUES ($1, $2, 'stripe',
     'requires_action', $5, $6, $7) RETURNING *].  [None] when the statement
    throws: a value that does not fit its column, a primary key in use, or a
    booking that does not exist. *)
Definition insert_payment_intent
  (db : Db) (id bookingId : Id) (amount : Q) (currency providerIntentId : string)
  (now : Instant) : option (Db * PaymentIntent.t) :=
  match varchar 50 "stripe", decimal_10_2 amount, varchar 3 currency,
        varchar 255 providerIntentId with
  | Some provider, Some amount, Some currency, Some providerIntentId =>
      if decide (is_Some (payment_intents db !! id)) then None
      else if decide (is_Some (bookings db !! bookingId))
      then
        let row := PaymentIntent.mk bookingId provider requires_action amount
                     currency providerIntentId now now in
        Some (with_payment_intents db (<[id := row]> (payment_intents db)), row)
      else None
  | _, _, _, _ => None
  end.

Module PaymentIntents.

Record Create := mkCreate {
  bookingId : option Id;
  amount : option Q;            (* a JSON number, as the decimal it is sent as *)
  currency : option string;
  paymentMethodId : option string
}.

(** JS truthiness of an optional number: [undefined] and [0] are falsy. *)
Definition truthy_number (a : option Q) : bool :=
  match a with
  | Some q => negb (Qeq_bool q 0)
  | None => false
  end.

Inductive Body :=
  | JError (error : string)
  | JCreated (paymentIntentId : Id) (clientSecret : string) (status : string)
             (payment : PaymentIntent.t)
  | JPaymentRow (payment : PaymentIntent.t) (starts_at : Instant)
                (booking_status : BookingStatus).

Record Outcome := mkOutcome {
  code : Z;
  body : Body;
  db_after : Db;
  provider_intents : list MockStripe.Intent   (* created at the provider *)
}.

(** POST /payment-intents.  [paymentId] is the value of [uuidv4()], [t1] and
    [t2] the two readings of [Date.now()] by the mock, [now] the database
    clock.  The arguments of the mock call (the amount in cents, the currency
    in lower case) reach nothing the handler stores or answers; the call is
    recorded by the intent it returns. *)
Definition post_payment_intents
  (paymentId : Id) (t1 t2 now : Instant) (req : Create) (db : Db) : Outcome :=
  let currency := default "USD" (currency req) in
  match bookingId req, amount req with
  | Some bookingId, Some amount =>
      if negb (truthy (Some bookingId)) || negb (truthy_number (Some amount))
      then mkOutcome 400 (JError "Booking ID and amount are required") db []
      else
        let intent := MockStripe.create t1 t2 in
        match insert_payment_intent db paymentId bookingId amount currency
                (MockStripe.id intent) now with
        | Some (db', row) =>
            mkOutcome 201
              (JCreated paymentId (MockStripe.client_secret intent)
                        (MockStripe.status intent) row)
              db' [intent]
        | None =>
            mkOutcome 500 (JError "Failed to create payment intent") db [intent]
        end
  | _, _ => mkOutcome 400 (JError "Booking ID and amount are required") db []
  end.

(** GET /payment-intents/:id: the intent joined with its booking. *)
Definition get_payment_intent (id : Id) (db : Db) : Outcome :=
  match payment_intents db !! id with
  | Some pi =>
      match bookings db !! PaymentIntent.booking_id pi with
      | Some b =>
          mkOutcome 200 (JPaymentRow pi (Booking.starts_at b) (Booking.status b))
                    db []
      | None => mkOutcome 404 (JError "Payment intent not found") db []
      end
  | None => mkOutcome 404 (JError "Payment intent not found") db []
  end.

End PaymentIntents.

(** ** GET /bookings/:id

    The query joins the booking with its coach, the coach's user and the
    player's user.  The columns it reads from [coaches] and [users] are kept
    in a directory beside the database. *)

Module Directory.

Record Coach := mkCoach {
  user_id : option Id;          (* nullable reference to users(id) *)
  display_name : string
}.

Record t := mk {
  coach_rows : gmap Id Coach;
  emails : gmap Id string       (* users.email by users.id *)
}.

(** The directory holds the rows of the keys the database knows. *)
Definition agrees (dir : t) (db : Db) : Prop :=
  dom (coach_rows dir) = coaches db ∧ dom (emails dir) = users db.

End Directory.

Record BookingView := mkBookingView {
  bv_booking : Booking.t;
  coach_name : string;
  coach_email : string;
  player_email : string
}.

(** [None] is the answer 404 "Booking not found". *)
Definition get_booking (id : Id) (dir : Directory.t) (db : Db) : option BookingView :=
  b ← bookings db !! id;
  c ← Directory.coach_rows dir !! Booking.coach_id b;
  u ← Directory.user_id c;
  u1 ← Directory.emails dir !! u;
  u2 ← Directory.emails dir !! Booking.player_id b;
  Some (mkBookingView b (Directory.display_name c) u1 u2).

(** ** Sequences of requests *)

(** A request to either service, with everything its handler reads from
    outside the database. *)
Inductive Call :=
  | CreateBooking (bookingId : Id) (now : Instant) (req : SessionService.CreateBooking)
  | UpdateStatus (id : Id) (now : Instant) (req : SessionService.UpdateStatus)
  | CancelBooking (id : Id) (now : Instant) (req : SessionService.Cancel)
  | CreateIntent (paymentId : Id) (t1 t2 now : Instant) (req : PaymentIntents.Create)
  | Confirm (id : Id) (now : Instant)
  | Capture (id : Id) (now : Instant)
  | Refund (id : Id) (now : Instant) (req : PaymentService.Refund).

(** The database after one request. *)
Definition perform (c : Call) (db : Db) : Db :=
  match c with
  | CreateBooking bookingId now req =>
      db_after (SessionService.post_bookings bookingId now req db)
  | UpdateStatus id now req =>
      db_after (SessionService.put_booking_status id now req db)
  | CancelBooking id now req =>
      db_after (SessionService.post_booking_cancel id now req db)
  | CreateIntent paymentId t1 t2 now req =>
      PaymentIntents.db_after
        (PaymentIntents.post_payment_intents paymentId t1 t2 now req db)
  | Confirm id now => db_after (PaymentService.post_confirm id now db)
  | Capture id now => db_after (PaymentService.post_capture id now db)
  | Refund id now req => db_after (PaymentService.post_refund id now req db)
  end.

(** The database after a sequence of requests, served one after the other. *)
Definition serve (cs : list Call) (db : Db) : Db :=
  foldl (λ db c, perform c db) db cs.

(** Every booking points at an existing player and coach, and every payment
    intent at an existing booking (the foreign keys of the schema). *)
Definition referential_integrity (db : Db) : Prop :=
  (∀ id b, bookings db !! id = Some b →
           Booking.player_id b ∈ users db ∧ Booking.coach_id b ∈ coaches db)
  ∧ (∀ pid p, payment_intents db !! pid = Some p →
              is_Some (bookings db !! PaymentIntent.booking_id p)).

(** The columns of a booking that no request may touch once it is stored. *)
Definition booked (b : Booking.t) : Id * Id * Instant * Z * string * Instant :=
  (Booking.player_id b, Booking.coach_id b, Booking.starts_at b,
   Booking.duration b, Booking.timezone b, Booking.created_at b).

(** The five ways a request can leave the database: as it was, with one
    booking added, with the status of one booking rewritten, with one payment
    intent added, or with the status of one payment intent rewritten. *)
Inductive written (db : Db) : Db → Prop :=
  | nothing_written : written db db
  | booking_added id b :
      bookings db !! id = None →
      Booking.player_id b ∈ users db → Booking.coach_id b ∈ coaches db →
      Booking.status b = confirmed →
      written db (with_bookings db (<[id := b]> (bookings db)))
  | booking_stamped id b st now :
      bookings db !! id = Some b → st ≠ pending →
      written db
        (with_bookings db (<[id := Booking.set_status st now b]> (bookings db)))
  | intent_added pid p :
      payment_intents db !! pid = None →
      is_Some (bookings db !! PaymentIntent.booking_id p) →
      PaymentIntent.status p = requires_action →
      written db (with_payment_intents db (<[pid := p]> (payment_intents db)))
  | intent_stamped pid p st now :
      payment_intents db !! pid = Some p →
      written db
        (with_payment_intents db
           (<[pid := PaymentIntent.set_status st now p]> (payment_intents db))).

(** ** Identifiers on the wire

    The handlers above take their identifiers as uuid values, written in the
    one form PostgreSQL prints them in.  What arrives in a path is any text:
    the uuid column it is compared with reads it with [uuid_in], which takes
    upper and lower case digits, an optional pair of braces and an optional
    hyphen after every group of four digits, and throws on everything else. *)

(** A hexadecimal digit, in lower case. *)
Definition hex_digit (a : ascii) : option ascii :=
  let n := nat_of_ascii a in
  if (48 <=? n)%nat && (n <=? 57)%nat then Some a
  else if (97 <=? n)%nat && (n <=? 102)%nat then Some a
  else if (65 <=? n)%nat && (n <=? 70)%nat then Some (ascii_of_nat (n + 32))
  else None.

(** The loop of [string_to_uuid]: [left] bytes still to read, the next one
    being byte [i]; each byte is two digits, and a hyphen may follow a byte of
    odd index other than the last. *)
Fixpoint uuid_bytes (left i : nat) (src : string) : option (list ascii * string) :=
  match left with
  | O => Some ([], src)
  | S left' =>
      match src with
      | String a (String b rest) =>
          match hex_digit a, hex_digit b with
          | Some a', Some b' =>
              let rest' :=
                match rest with
                | String "-" r => if Nat.odd i && (i <? 15)%nat then r else rest
                | _ => rest
                end in
              match uuid_bytes left' (S i) rest' with
              | Some (ds, r) => Some (a' :: b' :: ds, r)
              | None => None
              end
          | _, _ => None
          end
      | _ => None
      end
  end.

(** [uuid_out]: 8-4-4-4-12. *)
Definition uuid_out (ds : list ascii) : Id :=
  string_of_list_ascii
    (take 8 ds ++ "-"%char :: take 4 (drop 8 ds) ++ "-"%char :: take 4 (drop 12 ds)
     ++ "-"%char :: take 4 (drop 16 ds) ++ "-"%char :: drop 20 ds)%list.

(** The uuid a text denotes, if it denotes one. *)
Definition uuid_in (s : string) : option Id :=
  let '(braces, src) :=
    match s with
    | String "{" r => (true, r)
    | _ => (false, s)
    end in
  match uuid_bytes 16 0 src with
  | Some (ds, rest) =>
      if braces
      then if String.eqb rest "}" then Some (uuid_out ds) else None
      else if String.eqb rest "" then Some (uuid_out ds) else None
  | None => None
  end.

(** The handlers with the identifier of the path as it arrives.  A text that
    is no uuid makes the first statement that uses it throw. *)
Module Wire.

(** PUT /bookings/:id/status: the status is examined before the UPDATE. *)
Definition put_booking_status
  (id : string) (now : Instant) (req : SessionService.UpdateStatus) (db : Db)
  : Outcome :=
  match SessionService.us_status req with
  | None => reject db 400 "Status is required"
  | Some status =>
      if negb (truthy (Some status)) then reject db 400 "Status is required"
      else if negb (includes SessionService.validStatuses status)
      then reject db 400 "Invalid status"
      else
        match uuid_in id with
        | Some key => SessionService.put_booking_status key now req db
        | None =>
            failed db "Update booking status error:" "Failed to update booking status"
        end
  end.

(** POST /bookings/:id/cancel *)
Definition post_booking_cancel
  (id : string) (now : Instant) (req : SessionService.Cancel) (db : Db) : Outcome :=
  match uuid_in id with
  | Some key => SessionService.post_booking_cancel key now req db
  | None => failed db "Cancel booking error:" "Failed to cancel booking"
  end.

(** POST /payment-intents/:id/confirm *)
Definition post_confirm (id : string) (now : Instant) (db : Db) : Outcome :=
  match uuid_in id with
  | Some key => PaymentService.post_confirm key now db
  | None => failed db "Confirm payment error:" "Failed to confirm payment"
  end.

(** POST /payment-intents/:id/capture *)
Definition post_capture (id : string) (now : Instant) (db : Db) : Outcome :=
  match uuid_in id with
  | Some key => PaymentService.post_capture key now db
  | None => failed db "Capture payment error:" "Failed to capture payment"
  end.

(** POST /payment-intents/:id/refund *)
Definition post_refund
  (id : string) (now : Instant) (req : PaymentService.Refund) (db : Db) : Outcome :=
  match uuid_in id with
  | Some key => PaymentService.post_refund key now req db
  | None => failed db "Refund payment error:" "Failed to process refund"
  end.

(** GET /payment-intents/:id *)
Definition get_payment_intent (id : string) (db : Db) : PaymentIntents.Outcome :=
  match uuid_in id with
  | Some key => PaymentIntents.get_payment_intent key db
  | None =>
      PaymentIntents.mkOutcome 500 (PaymentIntents.JError "Failed to get payment")
        db []
  end.

End Wire.

(** ** Ordinary values

    The values of a booking that its columns take as they are written, and
    on which the arithmetic of the conflict query stays inside TIMESTAMPTZ: an
    instant between 1970 and the year 10000, a duration of at most 10^9
    minutes either way, a time zone of at most fifty characters. *)






(** * Properties *)

(** ** The database *)

Lemma active_iff s : active s ↔ s ≠ cancelled ∧ s ≠ completed.
Proof.
  unfold active. rewrite !not_elem_of_cons. pose proof (not_elem_of_nil s). tauto.
Qed.

Lemma select_conflicts_nonempty db c s :
  reports_conflict db c s ↔
  ∃ id b, bookings db !! id = Some b ∧ conflict_where c s b.
Proof.
  unfold reports_conflict, select_conflicts.
  set (m := filter _ _).
  split.
  - intros Hlen.
    destruct (map_choose_or_empty m) as [(id & b & Hb) | Hm].
    + apply map_lookup_filter_Some in Hb as [Hb Hw]. by exists id, b.
    + rewrite Hm, map_to_list_empty in Hlen. simpl in Hlen. lia.
  - intros (id & b & Hb & Hw).
    assert (Hin : (id, b) ∈ map_to_list m).
    { apply elem_of_map_to_list, map_lookup_filter_Some. by split. }
    destruct (map_to_list m); [by apply elem_of_nil in Hin | simpl; lia].
Qed.

Lemma select_conflicts_empty db c s :
  select_conflicts db c s = [] ↔
  ∀ id b, bookings db !! id = Some b → ¬ conflict_where c s b.
Proof.
  split.
  - intros Hnil id b Hb Hw.
    assert (Hr : reports_conflict db c s)
      by (apply select_conflicts_nonempty; eauto).
    unfold reports_conflict in Hr. rewrite Hnil in Hr. simpl in Hr. lia.
  - intros Hno.
    destruct (select_conflicts db c s) eqn:E; [done |].
    assert (Hr : reports_conflict db c s)
      by (unfold reports_conflict; rewrite E; simpl; lia).
    apply select_conflicts_nonempty in Hr as (id & b & Hb & Hw).
    by destruct (Hno id b Hb).
Qed.

Lemma insert_booking_inr db id b db' :
  insert_booking db id b = inr db' →
  bookings db !! id = None
  ∧ db' = with_bookings db (<[id := b]> (bookings db)).
Proof.
  unfold insert_booking. intros H.
  destruct (decide (is_Some (bookings db !! id))) as [|Hn]; [done |].
  destruct (decide _); [| done].
  split; [| congruence].
  by apply eq_None_not_Some.
Qed.

Lemma insert_booking_keeps db id b db' id0 b0 :
  insert_booking db id b = inr db' →
  bookings db !! id0 = Some b0 → bookings db' !! id0 = Some b0.
Proof.
  intros Hi Hb. apply insert_booking_inr in Hi as [Hfresh ->]. simpl.
  rewrite lookup_insert_ne; [done | congruence].
Qed.

(** ** Conflict detection *)

(** Whatever the handler reports is a conflict in the sense of the
    specification, as long as the requested duration is positive. *)
Lemma reported_conflict_is_overlap db c s d :
  0 < d → reports_conflict db c s → HasConflict_spec db c s d.
Proof.
  intros Hd (id & b & Hb & Hc & Hs & He & Ha)%select_conflicts_nonempty.
  exists id, b. unfold overlaps_spec. repeat split; [done.. | lia | lia].
Qed.

(** Intervals that only touch are not reported. *)
Lemma touching_not_reported db c s d id b :
  0 < d →
  bookings db !! id = Some b →
  Booking.ends_at b = s ∨ Booking.starts_at b = s + d * 60000 →
  ¬ conflict_where c s b.
Proof.
  intros Hd _ Ht (_ & Hs & He & _). destruct Ht; lia.
Qed.

(** The rows the query cannot see: a booking that starts after the requested
    start never satisfies the WHERE clause, however long the request is. *)
Lemma later_start_escapes_query c s b :
  s < Booking.starts_at b → ¬ conflict_where c s b.
Proof. intros Hlate (_ & Hs & _). lia. Qed.

(** C1 (the code departs from the claim). An active booking of the same
    coach that starts half an hour after the requested start overlaps the
    requested hour, so the specification's test reports a conflict; the
    conflict query of POST /bookings returns no row, and the handler creates a
    second confirmed booking over the same time. *)
Theorem C1_later_start_not_reported :
  let db := Sample.with_booking (Sample.t10h + Sample.minutes 30) 60 confirmed in
  let o := SessionService.post_bookings Sample.booking2 Sample.t10h
             (Sample.create Sample.t10h (Some 60)) db in
  HasConflict_spec db Sample.coach Sample.t10h 60
  ∧ ¬ reports_conflict db Sample.coach Sample.t10h
  ∧ code (response o) = 201
  ∧ bookings (db_after o) !! Sample.booking2
    = Some (Booking.mk Sample.player Sample.coach Sample.t10h 60 confirmed "UTC"
              Sample.t10h Sample.t10h)
  ∧ bookings (db_after o) !! Sample.booking1
    = Some (Sample.booking_at (Sample.t10h + Sample.minutes 30) 60 confirmed).
Proof.
  cbv zeta. split; [| split; [| by vm_compute]].
  - exists Sample.booking1, (Sample.booking_at (Sample.t10h + Sample.minutes 30) 60 confirmed).
    split; [by vm_compute |]. split; [done |]. split.
    + by apply active_iff.
    + by vm_compute.
  - unfold reports_conflict. vm_compute. lia.
Qed.

(** ** POST /bookings *)

Section CreateBooking.
Import SessionService.

Lemma truthy_Some f : truthy f = true → ∃ s, f = Some s ∧ s ≠ "".
Proof.
  destruct f as [s|]; simpl; [| done]. intros H. exists s. split; [done |].
  intros ->. done.
Qed.

Lemma check_missing req db :
  missing_field req →
  post_bookings_check req db = Answered (reject db 400 required_message).
Proof.
  unfold post_bookings_check, missing_field, required_message.
  intros [-> | [-> | ->]]; simpl.
  - done.
  - by rewrite orb_true_r.
  - by rewrite orb_true_r.
Qed.

Lemma check_complete req db :
  ¬ missing_field req →
  ∃ p c s,
    playerId req = Some p ∧ coachId req = Some c ∧ startsAt req = Some s
    ∧ post_bookings_check req db =
        if bool_decide (reports_conflict db c s)
        then Answered (reject db 409 "Time slot already booked")
        else ToInsert p c s (default 60 (durationMinutes req))
                      (default "UTC" (timezone req)).
Proof.
  unfold missing_field, post_bookings_check. intros Hm.
  destruct (truthy (playerId req)) eqn:Hp; [| tauto].
  destruct (truthy (coachId req)) eqn:Hc; [| tauto].
  destruct (startsAt req) as [s|] eqn:Hs; [| tauto].
  apply truthy_Some in Hp as (p & -> & _).
  apply truthy_Some in Hc as (c & -> & _).
  exists p, c, s. by simpl.
Qed.

Lemma check_ToInsert req db p c s d tz :
  post_bookings_check req db = ToInsert p c s d tz →
  playerId req = Some p ∧ coachId req = Some c ∧ startsAt req = Some s
  ∧ d = default 60 (durationMinutes req)
  ∧ tz = default "UTC" (timezone req)
  ∧ ¬ reports_conflict db c s.
Proof.
  intros H.
  destruct (decide (missing_field req)) as [Hm | Hm].
  - by rewrite (check_missing _ _ Hm) in H.
  - destruct (check_complete req db Hm) as (p' & c' & s' & Hp & Hc & Hs & E).
    rewrite E in H. case_bool_decide; [done |].
    injection H as -> -> -> <- <-. done.
Qed.

Lemma check_keeps_db req db o :
  post_bookings_check req db = Answered o → db_after o = db ∧ effects o = [].
Proof.
  intros H.
  destruct (decide (missing_field req)) as [Hm | Hm].
  - rewrite (check_missing _ _ Hm) in H. by injection H as <-.
  - destruct (check_complete req db Hm) as (p & c & s & _ & _ & _ & E).
    rewrite E in H. case_bool_decide; [| done]. by injection H as <-.
Qed.

(** The two ways the INSERT can end. *)
Lemma insert_outcome bookingId now p c s d tz db :
  let row := Booking.mk p c s d confirmed tz now now in
  let o := post_bookings_insert bookingId now p c s d tz db in
  (code (response o) = 201
   ∧ body (response o) = JCreated bookingId confirmed row
   ∧ bookings db !! bookingId = None
   ∧ db_after o = with_bookings db (<[bookingId := row]> (bookings db))
   ∧ effects o = [BookingCreated bookingId p c s])
  ∨ (code (response o) = 500
     ∧ db_after o = db
     ∧ effects o = [ConsoleError "Create booking error:"]).
Proof.
  cbv zeta. unfold post_bookings_insert.
  destruct (insert_booking db bookingId _) as [e | db'] eqn:E.
  - right. by simpl.
  - left. apply insert_booking_inr in E as [Hfresh ->]. by simpl.
Qed.

(** A handler never overwrites or removes a booking that is there. *)
Lemma post_bookings_keeps bookingId now req db id0 b0 :
  bookings db !! id0 = Some b0 →
  bookings (db_after (post_bookings bookingId now req db)) !! id0 = Some b0.
Proof.
  intros Hb. unfold post_bookings.
  destruct (post_bookings_check req db) as [o | p c s d tz] eqn:E.
  - apply check_keeps_db in E as [-> _]. done.
  - destruct (insert_outcome bookingId now p c s d tz db)
      as [(_ & _ & Hfresh & -> & _) | (_ & -> & _)]; [| done].
    simpl. rewrite lookup_insert_ne; [done | congruence].
Qed.

End CreateBooking.

(** Discharges a closed decidable proposition by evaluation. *)
Ltac by_compute := apply (bool_decide_unpack _); vm_compute; exact I.

Section CreateBookingClaims.
Import SessionService.

(** C2, as stated, fails: a request on an empty calendar ends with a
    booking in [confirmed] although no payment intent exists and the
    handler called no payment provider. *)
Lemma C2_confirmed_without_authorization :
  let o := post_bookings Sample.booking1 Sample.t10h
             (Sample.create (Sample.t10h + Sample.hours 3) (Some 60))
             Sample.empty in
  code (response o) = 201
  ∧ Booking.status <$> bookings (db_after o) !! Sample.booking1 = Some confirmed
  ∧ payment_intents (db_after o) = ∅
  ∧ filter is_provider_call (effects o) = []
  ∧ ¬ confirmed_only_if_authorized (db_after o).
Proof.
  cbv zeta. repeat split; try by vm_compute.
  intros H.
  destruct (H Sample.booking1
              (Booking.mk Sample.player Sample.coach
                 (Sample.t10h + Sample.hours 3) 60 confirmed "UTC"
                 Sample.t10h Sample.t10h))
    as (pid & p & Hp & _); [by vm_compute | done |].
  by vm_compute in Hp.
Qed.

(** C2 (amended). A request that has its required fields and meets no
    conflict goes straight to one INSERT with status [confirmed]: either the
    INSERT succeeds and the new row is the only change, or it throws and
    nothing changes.  No payment authorization takes part: the
    payment intents are untouched and no provider is called. *)
Theorem C2_created_confirmed_in_one_insert bookingId now req db p c s :
  playerId req = Some p → coachId req = Some c → startsAt req = Some s →
  ¬ missing_field req →
  ¬ reports_conflict db c s →
  let o := post_bookings bookingId now req db in
  let row := Booking.mk p c s (default 60 (durationMinutes req)) confirmed
               (default "UTC" (timezone req)) now now in
  payment_intents (db_after o) = payment_intents db
  ∧ filter is_provider_call (effects o) = []
  ∧ ((code (response o) = 201
      ∧ body (response o) = JCreated bookingId confirmed row
      ∧ bookings db !! bookingId = None
      ∧ bookings (db_after o) = <[bookingId := row]> (bookings db))
     ∨ (code (response o) = 500 ∧ db_after o = db)).
Proof.
  intros Hp Hc Hs Hm Hno. cbv zeta. unfold post_bookings.
  destruct (check_complete req db Hm) as (p' & c' & s' & Hp' & Hc' & Hs' & E).
  assert (p' = p) as -> by congruence.
  assert (c' = c) as -> by congruence.
  assert (s' = s) as -> by congruence.
  rewrite E, bool_decide_eq_false_2 by done.
  destruct (insert_outcome bookingId now p c s
              (default 60 (durationMinutes req))
              (default "UTC" (timezone req)) db)
    as [(H1 & H2 & H3 & H4 & H5) | (H1 & H2 & H3)].
  - rewrite H4, H5. simpl. split; [done |]. split; [done |]. left.
    by rewrite H1, H2.
  - rewrite H2, H3. simpl. split; [done |]. split; [done |]. by right.
Qed.

Lemma C2_witness :
  let req := Sample.create (Sample.t10h + Sample.hours 3) (Some 60) in
  let o := post_bookings Sample.booking1 Sample.t10h req Sample.empty in
  payment_intents (db_after o) = payment_intents Sample.empty
  ∧ filter is_provider_call (effects o) = []
  ∧ ((code (response o) = 201
      ∧ body (response o)
        = JCreated Sample.booking1 confirmed
            (Booking.mk Sample.player Sample.coach
               (Sample.t10h + Sample.hours 3) 60 confirmed "UTC"
               Sample.t10h Sample.t10h)
      ∧ bookings Sample.empty !! Sample.booking1 = None
      ∧ bookings (db_after o)
        = <[Sample.booking1 :=
              Booking.mk Sample.player Sample.coach
                (Sample.t10h + Sample.hours 3) 60 confirmed "UTC"
                Sample.t10h Sample.t10h]> (bookings Sample.empty))
     ∨ (code (response o) = 500 ∧ db_after o = Sample.empty)).
Proof.
  apply (C2_created_confirmed_in_one_insert Sample.booking1 Sample.t10h
           (Sample.create (Sample.t10h + Sample.hours 3) (Some 60))
           Sample.empty Sample.player Sample.coach
           (Sample.t10h + Sample.hours 3)).
  - reflexivity.
  - reflexivity.
  - reflexivity.
  - by_compute.
  - by_compute.
Defined.

(** C7, as stated, fails: a request for minus thirty minutes, starting a
    day before the current time, is accepted and its booking persisted. *)
Lemma C7_negative_duration_in_the_past_accepted :
  let now := Sample.t10h + Sample.hours 24 in
  let req := Sample.create Sample.t10h (Some (-30)) in
  let o := post_bookings Sample.booking1 now req Sample.empty in
  default 60 (durationMinutes req) <= 0
  ∧ startsAt req = Some Sample.t10h ∧ Sample.t10h < now
  ∧ code (response o) = 201
  ∧ bookings (db_after o) !! Sample.booking1
    = Some (Booking.mk Sample.player Sample.coach Sample.t10h (-30) confirmed
              "UTC" now now)
  ∧ ¬ ErrValidation Sample.empty o.
Proof.
  cbv zeta. repeat split; try by vm_compute.
  intros [H _]. by vm_compute in H.
Qed.

(** C7 (amended). A request with a missing required field (player, coach
    or start time) is refused with status 400 and persists nothing, and
    these are the only requests refused with 400: neither the duration nor
    the position of the start against the clock is looked at. *)
Theorem C7_missing_field_rejected bookingId now req db :
  let o := post_bookings bookingId now req db in
  (missing_field req →
     response o = mkResponse 400 (JError required_message)
     ∧ ErrValidation db o)
  ∧ (code (response o) = 400 → missing_field req).
Proof.
  cbv zeta. split.
  - intros Hm. unfold post_bookings, ErrValidation.
    by rewrite (check_missing req db Hm).
  - intros H400.
    destruct (decide (missing_field req)) as [Hm | Hm]; [done | exfalso].
    revert H400. unfold post_bookings.
    destruct (check_complete req db Hm) as (p & c & s & _ & _ & _ & E).
    rewrite E. case_bool_decide; [done |].
    by destruct (insert_outcome bookingId now p c s
                   (default 60 (durationMinutes req))
                   (default "UTC" (timezone req)) db)
      as [(-> & _) | (-> & _)].
Qed.

Lemma C7_witness :
  let req := mkCreateBooking (Some Sample.player) None (Some Sample.t10h)
               (Some 60) None in
  let o := post_bookings Sample.booking1 Sample.t10h req Sample.empty in
  missing_field req
  ∧ response o = mkResponse 400 (JError required_message)
  ∧ ErrValidation Sample.empty o.
Proof.
  cbv zeta.
  assert (H : missing_field
                (mkCreateBooking (Some Sample.player) None (Some Sample.t10h)
                   (Some 60) None)) by by_compute.
  split; [exact H |].
  exact (proj1 (C7_missing_field_rejected Sample.booking1 Sample.t10h _
                  Sample.empty) H).
Defined.

End CreateBookingClaims.

(** ** PUT /bookings/:id/status and POST /bookings/:id/cancel *)

Lemma update_booking_status_Some db id s now b :
  bookings db !! id = Some b →
  update_booking_status db id s now
  = (with_bookings db (<[id := Booking.set_status s now b]> (bookings db)),
     Some (Booking.set_status s now b)).
Proof.
  intros Hb. unfold update_booking_status. rewrite Hb. simpl.
  f_equal. f_equal. apply map_eq. intros j.
  destruct (decide (id = j)) as [<- | Hne].
  - by rewrite lookup_alter_eq, lookup_insert_eq, Hb.
  - by rewrite lookup_alter_ne, lookup_insert_ne.
Qed.

Lemma update_booking_status_None db id s now :
  bookings db !! id = None →
  update_booking_status db id s now = (db, None).
Proof.
  intros Hb. unfold update_booking_status. rewrite Hb. simpl.
  f_equal. destruct db as [us cs bs ps]. unfold with_bookings. simpl in *.
  f_equal. apply map_eq. intros j.
  destruct (decide (id = j)) as [<- | Hne].
  - by rewrite lookup_alter_eq, Hb.
  - by rewrite lookup_alter_ne.
Qed.

Lemma includes_validStatuses str :
  includes SessionService.validStatuses str = true ↔
  str = "confirmed" ∨ str = "in_progress" ∨ str = "completed" ∨ str = "cancelled".
Proof.
  unfold includes, SessionService.validStatuses. simpl.
  rewrite !orb_true_iff, !String.eqb_eq. intuition discriminate.
Qed.

Lemma valid_status_parses str :
  includes SessionService.validStatuses str = true →
  ∃ s, status_of_string str = Some s ∧ s ≠ pending ∧ truthy (Some str) = true.
Proof.
  intros [-> | [-> | [-> | ->]]]%includes_validStatuses;
    eexists; (split; [reflexivity | split; [discriminate | reflexivity]]).
Qed.


(** [hoursUntilStart] against a whole number of hours is a comparison of
    milliseconds. *)
Lemma hoursUntilStart_lt startsAt now (n : Z) :
  (SessionService.hoursUntilStart startsAt now < inject_Z n)%Q
  ↔ startsAt - now < n * 3600000.
Proof.
  unfold SessionService.hoursUntilStart, Qlt, Qdiv, Qmult, Qinv, inject_Z.
  simpl. lia.
Qed.

Lemma hoursUntilStart_ge startsAt now (n : Z) :
  (inject_Z n <= SessionService.hoursUntilStart startsAt now)%Q
  ↔ n * 3600000 <= startsAt - now.
Proof.
  unfold SessionService.hoursUntilStart, Qle, Qdiv, Qmult, Qinv, inject_Z.
  simpl. lia.
Qed.

Section StatusClaims.
Import SessionService.

Lemma put_status_valid id now req db str :
  us_status req = Some str →
  includes validStatuses str = true →
  ∃ s, status_of_string str = Some s ∧ s ≠ pending
    ∧ put_booking_status id now req db =
        match bookings db !! id with
        | Some b =>
            mkOutcome (mkResponse 200 (JBooking id (Booking.set_status s now b)))
              (with_bookings db (<[id := Booking.set_status s now b]> (bookings db)))
              [BookingStatusChanged id s (us_userId req)]
        | None => reject db 404 "Booking not found"
        end.
Proof.
  intros Hreq Hin.
  destruct (valid_status_parses str Hin) as (s & Hs & Hne & Ht).
  exists s. split; [done |]. split; [done |].
  unfold put_booking_status. rewrite Hreq, Ht, Hin, Hs. cbn [negb].
  destruct (bookings db !! id) as [b|] eqn:Hb.
  - by rewrite (update_booking_status_Some _ _ _ _ _ Hb).
  - by rewrite (update_booking_status_None _ _ _ _ Hb).
Qed.

Lemma put_status_invalid id now req db :
  (∀ str, us_status req = Some str → includes validStatuses str = false) →
  ErrValidation db (put_booking_status id now req db).
Proof.
  intros Hinv. unfold put_booking_status, ErrValidation.
  destruct (us_status req) as [str|]; [| done].
  rewrite (Hinv str eq_refl). by destruct (negb (truthy (Some str))).
Qed.

Lemma cancel_outcome id now req db b :
  bookings db !! id = Some b →
  let h := hoursUntilStart (Booking.starts_at b) now in
  post_booking_cancel id now req db =
    if Qltb h 2 && bool_decide (Booking.status b = confirmed)
    then reject db 400 window_message
    else mkOutcome
           (mkResponse 200
              (JCancelled "Booking cancelled successfully" id
                 (Booking.set_status cancelled now b) (Qle_bool 24 h)))
           (with_bookings db
              (<[id := Booking.set_status cancelled now b]> (bookings db)))
           [BookingCancelled id (c_userId req) (c_reason req) h].
Proof.
  intros Hb. cbv zeta. unfold post_booking_cancel. rewrite Hb.
  destruct (_ && _); [done |].
  by rewrite (update_booking_status_Some _ _ _ _ _ Hb).
Qed.

End StatusClaims.

Section LifecycleClaims.
Import SessionService.

(** C4, as stated, fails: a completed booking is set back to [confirmed]
    by a status update, and a booking in progress is cancelled; neither move
    is in the transition table, and both are answered with 200. *)
Lemma C4_moves_outside_the_table :
  let o := put_booking_status Sample.booking1 Sample.t10h
             (mkUpdateStatus (Some "confirmed") None)
             (Sample.with_booking Sample.t10h 60 completed) in
  let oc := post_booking_cancel Sample.booking1 Sample.t10h
              (mkCancel None None)
              (Sample.with_booking Sample.t10h 60 in_progress) in
  ¬ transition completed confirmed
  ∧ code (response o) = 200
  ∧ Booking.status <$> bookings (db_after o) !! Sample.booking1 = Some confirmed
  ∧ ¬ transition in_progress cancelled
  ∧ code (response oc) = 200
  ∧ Booking.status <$> bookings (db_after oc) !! Sample.booking1 = Some cancelled.
Proof.
  cbv zeta. repeat split; try by vm_compute.
  - inversion 1.
  - inversion 1.
Qed.

(** C4 (amended). On an existing booking a status update with one of the
    four targets confirmed, in_progress, completed and cancelled is answered
    200 and writes that very status, whatever the current one, together with
    the update time and nothing else; any other target is refused with 400 and
    changes nothing.  A cancellation of a booking that is not [confirmed]
    writes [cancelled], whatever the current status. *)
Theorem C4_status_written_whatever_the_current_one id now req creq db b str :
  bookings db !! id = Some b →
  us_status req = Some str →
  let o := put_booking_status id now req db in
  let oc := post_booking_cancel id now creq db in
  let stamped st :=
    Booking.mk (Booking.player_id b) (Booking.coach_id b) (Booking.starts_at b)
      (Booking.duration b) st (Booking.timezone b) (Booking.created_at b) now in
  (∀ st, str = "confirmed" ∧ st = confirmed
         ∨ str = "in_progress" ∧ st = in_progress
         ∨ str = "completed" ∧ st = completed
         ∨ str = "cancelled" ∧ st = cancelled →
         response o = mkResponse 200 (JBooking id (stamped st))
         ∧ bookings (db_after o) = <[id := stamped st]> (bookings db))
  ∧ (str ≠ "confirmed" → str ≠ "in_progress" → str ≠ "completed" →
     str ≠ "cancelled" → ErrValidation db o)
  ∧ (Booking.status b ≠ confirmed →
       code (response oc) = 200
       ∧ bookings (db_after oc) = <[id := stamped cancelled]> (bookings db)).
Proof.
  intros Hb Hreq. cbv zeta. split; [| split].
  - intros st Hcase.
    assert (Hin : includes validStatuses str = true).
    { by destruct Hcase as [[-> _] | [[-> _] | [[-> _] | [-> _]]]]. }
    destruct (put_status_valid id now req db str Hreq Hin) as (s & Hs & _ & E).
    assert (s = st) as ->.
    { destruct Hcase as [[-> ->] | [[-> ->] | [[-> ->] | [-> ->]]]];
        vm_compute in Hs; congruence. }
    rewrite E, Hb. by simpl.
  - intros H1 H2 H3 H4. apply put_status_invalid. intros str' Hstr'.
    assert (str' = str) as -> by congruence.
    destruct (includes validStatuses str) eqn:Hin; [| done].
    apply includes_validStatuses in Hin. tauto.
  - intros Hne. rewrite (cancel_outcome id now creq db b Hb).
    rewrite (bool_decide_eq_false_2 _ Hne), andb_false_r. by simpl.
Qed.

(** A completed booking is put back in progress. *)
Lemma C4_witness :
  let db := Sample.with_booking Sample.t10h 60 completed in
  let o := put_booking_status Sample.booking1 (Sample.t10h + 5)
             (mkUpdateStatus (Some "in_progress") None) db in
  let row := Booking.mk Sample.player Sample.coach Sample.t10h 60 in_progress
               "UTC" 0 (Sample.t10h + 5) in
  response o = mkResponse 200 (JBooking Sample.booking1 row)
  ∧ bookings (db_after o) = <[Sample.booking1 := row]> (bookings db).
Proof.
  cbv zeta.
  apply (C4_status_written_whatever_the_current_one
           Sample.booking1 (Sample.t10h + 5)
           (mkUpdateStatus (Some "in_progress") None)
           (mkCancel None None)
           (Sample.with_booking Sample.t10h 60 completed)
           (Sample.booking_at Sample.t10h 60 completed)
           "in_progress" eq_refl eq_refl).
  right. left. by split.
Defined.



(** C10. A status update never writes [pending]: that target is refused as
    invalid and changes nothing, and every booking that is pending after an
    update was the same pending booking before it. *)
Theorem C10_never_back_to_pending id now req db :
  let o := put_booking_status id now req db in
  (us_status req = Some "pending" →
     response o = mkResponse 400 (JError "Invalid status") ∧ db_after o = db)
  ∧ (∀ id' b', bookings (db_after o) !! id' = Some b' →
       Booking.status b' = pending → bookings db !! id' = Some b').
Proof.
  cbv zeta. split.
  - intros Hreq. unfold put_booking_status. by rewrite Hreq.
  - intros id' b' Hafter Hpending.
    destruct (us_status req) as [str|] eqn:Hreq;
      [| by unfold put_booking_status in Hafter; rewrite Hreq in Hafter].
    destruct (includes validStatuses str) eqn:Hin.
    + destruct (put_status_valid id now req db str Hreq Hin)
        as (s & _ & Hne & E).
      rewrite E in Hafter.
      destruct (bookings db !! id) as [b|] eqn:Hb; [| done].
      simpl in Hafter.
      destruct (decide (id = id')) as [<- | Hid].
      * rewrite lookup_insert_eq in Hafter. injection Hafter as <-.
        by simpl in Hpending.
      * by rewrite lookup_insert_ne in Hafter.
    + assert (Hv : ErrValidation db (put_booking_status id now req db)).
      { apply put_status_invalid. intros str' Hstr'. congruence. }
      destruct Hv as [_ Hdb]. by rewrite Hdb in Hafter.
Qed.

Lemma C10_witness :
  let db := Sample.with_booking Sample.t10h 60 confirmed in
  let o := put_booking_status Sample.booking1 Sample.t10h
             (mkUpdateStatus (Some "pending") None) db in
  response o = mkResponse 400 (JError "Invalid status") ∧ db_after o = db.
Proof.
  cbv zeta.
  exact (proj1 (C10_never_back_to_pending Sample.booking1 Sample.t10h
                  (mkUpdateStatus (Some "pending") None)
                  (Sample.with_booking Sample.t10h 60 confirmed)) eq_refl).
Defined.

End LifecycleClaims.

(** ** Payment intents *)

Lemma update_payment_status_Some db id s now p :
  payment_intents db !! id = Some p →
  update_payment_status db id s now
  = with_payment_intents db
      (<[id := PaymentIntent.set_status s now p]> (payment_intents db)).
Proof.
  intros Hp. unfold update_payment_status. f_equal. apply map_eq. intros j.
  destruct (decide (id = j)) as [<- | Hne].
  - by rewrite lookup_alter_eq, lookup_insert_eq, Hp.
  - by rewrite lookup_alter_ne, lookup_insert_ne.
Qed.

Lemma update_payment_status_fixed db id s now pid :
  fixed_columns <$> payment_intents (update_payment_status db id s now) !! pid
  = fixed_columns <$> payment_intents db !! pid.
Proof.
  unfold update_payment_status. simpl.
  destruct (decide (id = pid)) as [<- | Hne].
  - rewrite lookup_alter_eq. by destruct (payment_intents db !! id).
  - by rewrite lookup_alter_ne.
Qed.

Section PaymentClaims.
Import PaymentService.

Lemma capture_outcome id now db p :
  payment_intents db !! id = Some p →
  post_capture id now db =
    if bool_decide (PaymentIntent.status p = authorized)
    then mkOutcome
           (mkResponse 200 (JPayment "succeeded" "Payment captured successfully"))
           (with_payment_intents db
              (<[id := PaymentIntent.set_status captured now p]>
                 (payment_intents db)))
           [StripeCapture (PaymentIntent.provider_intent_id p);
            PaymentCaptured id (PaymentIntent.booking_id p)
                            (PaymentIntent.amount p)]
    else reject db 400 capture_message.
Proof.
  intros Hp. unfold post_capture. rewrite Hp.
  case_bool_decide; simpl; [| done].
  by rewrite (update_payment_status_Some _ _ _ _ _ Hp).
Qed.

Lemma refund_outcome id now req db p :
  payment_intents db !! id = Some p →
  post_refund id now req db =
    if bool_decide (PaymentIntent.status p = captured)
    then mkOutcome
           (mkResponse 200
              (JRefund "Refund processed successfully"
                 (or_amount (r_amount req) (PaymentIntent.amount p))))
           (with_payment_intents db
              (<[id := PaymentIntent.set_status refunded now p]>
                 (payment_intents db)))
           [PaymentRefunded id (PaymentIntent.booking_id p)
              (or_amount (r_amount req) (PaymentIntent.amount p))
              (r_reason req)]
    else reject db 400 refund_message.
Proof.
  intros Hp. unfold post_refund. rewrite Hp.
  case_bool_decide; simpl; [| done].
  by rewrite (update_payment_status_Some _ _ _ _ _ Hp).
Qed.

(** C3, as stated, fails: a Capture on an intent that is already captured
    is answered with the error 400, not with the existing result. *)
Lemma C3_second_capture_is_an_error :
  let db := Sample.with_intent captured in
  let o := post_capture Sample.intent1 Sample.t10h db in
  PaymentIntent.status <$> payment_intents db !! Sample.intent1 = Some captured
  ∧ response o = mkResponse 400 (JError capture_message)
  ∧ code (response o) ≠ 200.
Proof. cbv zeta. repeat split; try by vm_compute. Qed.

(** C3 (amended). Capture succeeds exactly when the intent is authorized; it
    then moves the intent to captured with one capture call to the provider.
    On an intent that is already captured, Capture is refused with 400,
    calls no provider and leaves the database as it is: capturing twice
    ends in the same state as capturing once, with an error for the second
    call. *)
Theorem C3_capture_only_from_authorized id now now' db :
  let o := post_capture id now db in
  let o' := post_capture id now' (db_after o) in
  (code (response o) = 200
   ↔ ∃ p, payment_intents db !! id = Some p
          ∧ PaymentIntent.status p = authorized)
  ∧ (∀ p, payment_intents db !! id = Some p →
          PaymentIntent.status p = authorized →
          payment_intents (db_after o)
          = <[id := PaymentIntent.set_status captured now p]> (payment_intents db)
          ∧ filter is_provider_call (effects o)
            = [StripeCapture (PaymentIntent.provider_intent_id p)])
  ∧ (∀ p, payment_intents db !! id = Some p →
          PaymentIntent.status p = captured →
          response o = mkResponse 400 (JError capture_message)
          ∧ db_after o = db ∧ effects o = [])
  ∧ (code (response o) = 200 →
       response o' = mkResponse 400 (JError capture_message)
       ∧ db_after o' = db_after o ∧ effects o' = []).
Proof.
  cbv zeta.
  assert (Hiff : code (response (post_capture id now db)) = 200
                 ↔ ∃ p, payment_intents db !! id = Some p
                        ∧ PaymentIntent.status p = authorized).
  { destruct (payment_intents db !! id) as [p|] eqn:Hp.
    - rewrite (capture_outcome id now db p Hp). case_bool_decide; simpl.
      + split; [eauto | done].
      + split; [done |]. intros (p' & [= <-] & Hs). done.
    - unfold post_capture. rewrite Hp. simpl.
      split; [done |]. by intros (p' & ? & _). }
  split; [exact Hiff |]. split; [| split].
  - intros p Hp Hs. rewrite (capture_outcome id now db p Hp).
    by rewrite (bool_decide_eq_true_2 _ Hs).
  - intros p Hp Hs. rewrite (capture_outcome id now db p Hp).
    rewrite bool_decide_eq_false_2; [done |]. rewrite Hs. done.
  - intros (p & Hp & Hs)%Hiff.
    pose proof (capture_outcome id now db p Hp) as E.
    rewrite (bool_decide_eq_true_2 _ Hs) in E. rewrite E. simpl.
    rewrite (capture_outcome id now' _ (PaymentIntent.set_status captured now p))
      by (simpl; apply lookup_insert_eq).
    by rewrite bool_decide_eq_false_2.
Qed.

Lemma C3_witness :
  let db := Sample.with_intent authorized in
  let o := post_capture Sample.intent1 Sample.t10h db in
  let o' := post_capture Sample.intent1 (Sample.t10h + 1) (db_after o) in
  response o' = mkResponse 400 (JError capture_message)
  ∧ db_after o' = db_after o ∧ effects o' = [].
Proof.
  cbv zeta.
  apply (C3_capture_only_from_authorized Sample.intent1 Sample.t10h
           (Sample.t10h + 1) (Sample.with_intent authorized)).
  reflexivity.
Defined.

End PaymentClaims.

Section RefundClaims.
Import PaymentService.

(** C6. Refund succeeds exactly when the intent is captured; any other
    request changes nothing.  Without an amount the refund is the stored
    amount, and after a successful refund, of whatever amount, the intent is
    refunded. *)
Theorem C6_refund_only_from_captured id now req db :
  let o := post_refund id now req db in
  (code (response o) = 200
   ↔ ∃ p, payment_intents db !! id = Some p
          ∧ PaymentIntent.status p = captured)
  ∧ (code (response o) ≠ 200 →
       db_after o = db ∧ ∃ error, body (response o) = JError error)
  ∧ (∀ p, payment_intents db !! id = Some p →
          PaymentIntent.status p = captured →
          (r_amount req = None →
             body (response o)
             = JRefund "Refund processed successfully" (PaymentIntent.amount p))
          ∧ payment_intents (db_after o)
            = <[id := PaymentIntent.set_status refunded now p]> (payment_intents db)
          ∧ PaymentIntent.status <$> payment_intents (db_after o) !! id
            = Some refunded).
Proof.
  cbv zeta.
  destruct (payment_intents db !! id) as [p|] eqn:Hp.
  - rewrite (refund_outcome id now req db p Hp).
    case_bool_decide as Hs; simpl.
    + split; [split; [eauto | done] |]. split; [done |].
      intros p' [= <-] _. split; [by intros -> |]. split; [done |].
      by rewrite lookup_insert_eq.
    + split; [split; [done | by intros (p' & [= <-] & ?)] |].
      split; [eauto |]. by intros p' [= <-] ?.
  - unfold post_refund. rewrite Hp. simpl.
    split; [split; [done | by intros (p' & ? & _)] |].
    split; [eauto | done].
Qed.

(** A partial refund of 20 out of 50 leaves the intent refunded. *)
Lemma C6_witness :
  let db := Sample.with_intent captured in
  let o := post_refund Sample.intent1 Sample.t10h (mkRefund (Some 20%Q) None) db in
  let o' := post_refund Sample.intent1 Sample.t10h (mkRefund None None) db in
  PaymentIntent.status <$> payment_intents (db_after o) !! Sample.intent1
  = Some refunded
  ∧ body (response o') = JRefund "Refund processed successfully" 50%Q.
Proof.
  cbv zeta. split.
  - destruct (C6_refund_only_from_captured Sample.intent1 Sample.t10h
                (mkRefund (Some 20%Q) None) (Sample.with_intent captured))
      as (_ & _ & H).
    exact (proj2 (proj2 (H (Sample.intent captured) eq_refl eq_refl))).
  - destruct (C6_refund_only_from_captured Sample.intent1 Sample.t10h
                (mkRefund None None) (Sample.with_intent captured))
      as (_ & _ & H).
    exact (proj1 (H (Sample.intent captured) eq_refl eq_refl) eq_refl).
Defined.

(** C9. Confirm, Capture and Refund write the status and the update time of
    one intent and nothing else: for every intent the booking reference, the
    provider, the amount, the currency, the provider's intent id and the
    creation time are after the request what they were before it, and the
    other tables are untouched. *)
Theorem C9_status_changes_keep_the_other_columns id now req db pid :
  let keeps (o : Outcome) :=
    fixed_columns <$> payment_intents (db_after o) !! pid
    = fixed_columns <$> payment_intents db !! pid
    ∧ bookings (db_after o) = bookings db
    ∧ users (db_after o) = users db
    ∧ coaches (db_after o) = coaches db in
  keeps (post_confirm id now db)
  ∧ keeps (post_capture id now db)
  ∧ keeps (post_refund id now req db).
Proof.
  cbv zeta. unfold post_confirm, post_capture, post_refund.
  destruct (payment_intents db !! id) as [p|] eqn:Hp; [| done].
  split; [| split].
  - cbn [db_after]. by rewrite update_payment_status_fixed.
  - destruct (negb _); [done |].
    cbn [db_after]. by rewrite update_payment_status_fixed.
  - destruct (negb _); [done |].
    cbn [db_after]. by rewrite update_payment_status_fixed.
Qed.

End RefundClaims.

(** ** Two requests for one slot *)

Section SameSlot.
Import SessionService InFlight.

(** A request that runs alone does what the handler does. *)
Lemma run_alone bookingId now0 now req db :
  let o := post_bookings bookingId now req db in
  run [(0%nat, now0); (0%nat, now)] [Received bookingId req] db
  = ([Responded (response o)], db_after o).
Proof.
  cbv zeta. unfold post_bookings. simpl.
  destruct (post_bookings_check req db) as [o | p c s d tz]; by simpl.
Qed.

(** Two requests that run one after the other do what the two handlers do
    in a row. *)
Lemma run_in_a_row idA idB nowA0 nowA nowB0 nowB reqA reqB db :
  let oA := post_bookings idA nowA reqA db in
  let oB := post_bookings idB nowB reqB (db_after oA) in
  run [(0%nat, nowA0); (0%nat, nowA); (1%nat, nowB0); (1%nat, nowB)]
      [Received idA reqA; Received idB reqB] db
  = ([Responded (response oA); Responded (response oB)], db_after oB).
Proof.
  cbv zeta. unfold post_bookings. simpl.
  destruct (post_bookings_check reqA db) as [oA | p c s d tz]; simpl.
  - destruct (post_bookings_check reqB (db_after oA)) as [oB | p c s d tz];
      by simpl.
  - destruct (post_bookings_check reqB _) as [oB | p' c' s' d' tz']; by simpl.
Qed.

(** C8 (the code departs from the claim). Two requests for the same coach
    and the same hour, on an empty calendar: when the conflict queries of both
    run before either INSERT, neither query finds a row, both requests are
    answered 201 and the coach has two confirmed bookings for that hour.  The
    check and the INSERT are not one atomic step. *)
Lemma C8_both_requests_commit :
  let req := Sample.create Sample.t10h (Some 60) in
  let now := Sample.t10h - Sample.hours 3 in
  let '(ts, db) :=
    run [(0%nat, now); (1%nat, now); (0%nat, now); (1%nat, now)]
        [Received Sample.booking1 req; Received Sample.booking2 req]
        Sample.empty in
  let row := Booking.mk Sample.player Sample.coach Sample.t10h 60 confirmed
               "UTC" now now in
  map (answered 201) ts = [true; true]
  ∧ bookings db !! Sample.booking1 = Some row
  ∧ bookings db !! Sample.booking2 = Some row
  ∧ ¬ exactly_one_succeeds ts.
Proof.
  cbv zeta. vm_compute. repeat split; try done.
  intros [H _]. discriminate H.
Qed.

(** What a 201 tells about the request and the database. *)
Lemma created_inv bookingId now req db :
  let o := post_bookings bookingId now req db in
  code (response o) = 201 →
  ∃ p c s,
    playerId req = Some p ∧ coachId req = Some c ∧ startsAt req = Some s
    ∧ ¬ reports_conflict db c s
    ∧ bookings db !! bookingId = None
    ∧ db_after o
      = with_bookings db
          (<[bookingId := Booking.mk p c s (default 60 (durationMinutes req))
                            confirmed (default "UTC" (timezone req)) now now]>
             (bookings db)).
Proof.
  cbv zeta. unfold post_bookings.
  destruct (post_bookings_check req db) as [o | p c s d tz] eqn:E.
  - destruct (decide (missing_field req)) as [Hm | Hm].
    + rewrite (check_missing _ _ Hm) in E. by injection E as <-.
    + destruct (check_complete req db Hm) as (p & c & s & _ & _ & _ & E').
      rewrite E' in E. case_bool_decide; [| done]. by injection E as <-.
  - apply check_ToInsert in E as (Hp & Hc & Hs & -> & -> & Hno).
    intros H201. exists p, c, s.
    destruct (insert_outcome bookingId now p c s
                (default 60 (durationMinutes req))
                (default "UTC" (timezone req)) db)
      as [(_ & _ & Hfresh & Hdb & _) | (H500 & _)].
    + done.
    + rewrite H500 in H201. done.
Qed.

(** Requests served one after the other: when the second asks, for the same
    coach, for a start inside the interval the first one booked, the first
    commits and the second is refused with 409 and writes nothing; no booking
    that was there before is overwritten or removed. *)
Theorem C8_second_request_in_a_row_conflicts
  idA idB nowA nowB reqA reqB db c sA sB :
  coachId reqA = Some c → coachId reqB = Some c →
  startsAt reqA = Some sA → startsAt reqB = Some sB →
  ¬ missing_field reqB →
  sA <= sB < sA + default 60 (durationMinutes reqA) * 60000 →
  let oA := post_bookings idA nowA reqA db in
  let oB := post_bookings idB nowB reqB (db_after oA) in
  code (response oA) = 201 →
  response oB = mkResponse 409 (JError "Time slot already booked")
  ∧ db_after oB = db_after oA
  ∧ (∀ id0 b0, bookings db !! id0 = Some b0 →
               bookings (db_after oB) !! id0 = Some b0)
  ∧ ∀ nowA0 nowB0,
      exactly_one_succeeds
        (run [(0%nat, nowA0); (0%nat, nowA); (1%nat, nowB0); (1%nat, nowB)]
             [Received idA reqA; Received idB reqB] db).1.
Proof.
  intros HcA HcB HsA HsB HmB Hin. cbv zeta. intros H201.
  destruct (created_inv idA nowA reqA db H201)
    as (p & c' & s' & _ & HcA' & HsA' & _ & _ & Hdb).
  assert (c' = c) as -> by congruence.
  assert (s' = sA) as -> by congruence.
  assert (Hrep : reports_conflict (db_after (post_bookings idA nowA reqA db)) c sB).
  { apply select_conflicts_nonempty. rewrite Hdb. simpl.
    eexists idA, _. split; [apply lookup_insert_eq |].
    unfold conflict_where, Booking.ends_at. simpl.
    repeat split; [lia | lia |]. by apply active_iff. }
  assert (HB : post_bookings idB nowB reqB (db_after (post_bookings idA nowA reqA db))
               = reject (db_after (post_bookings idA nowA reqA db)) 409
                   "Time slot already booked").
  { unfold post_bookings at 1.
    destruct (check_complete reqB (db_after (post_bookings idA nowA reqA db)) HmB)
      as (pB & cB & sB' & _ & HcB' & HsB' & E).
    assert (cB = c) as -> by congruence.
    assert (sB' = sB) as -> by congruence.
    by rewrite E, bool_decide_eq_true_2. }
  split; [by rewrite HB |]. split; [by rewrite HB |]. split.
  - intros id0 b0 Hb0. rewrite HB. simpl. by apply post_bookings_keeps.
  - intros nowA0 nowB0. rewrite run_in_a_row. simpl.
    rewrite HB. unfold exactly_one_succeeds. simpl.
    rewrite !filter_cons, filter_nil. simpl.
    rewrite (bool_decide_eq_true_2 _ H201).
    rewrite (bool_decide_eq_false_2 (code _ = 409)) by (rewrite H201; done).
    by simpl.
Qed.

(** The scenario of the specification, run one request after the other. *)
Lemma C8_witness :
  let req := Sample.create Sample.t10h (Some 60) in
  let now := Sample.t10h - Sample.hours 3 in
  let oA := post_bookings Sample.booking1 now req Sample.empty in
  let oB := post_bookings Sample.booking2 now req (db_after oA) in
  response oB = mkResponse 409 (JError "Time slot already booked")
  ∧ db_after oB = db_after oA
  ∧ (∀ id0 b0, bookings Sample.empty !! id0 = Some b0 →
               bookings (db_after oB) !! id0 = Some b0)
  ∧ ∀ nowA0 nowB0,
      exactly_one_succeeds
        (run [(0%nat, nowA0); (0%nat, now); (1%nat, nowB0); (1%nat, now)]
             [Received Sample.booking1 req; Received Sample.booking2 req]
             Sample.empty).1.
Proof.
  cbv zeta.
  apply (C8_second_request_in_a_row_conflicts
           Sample.booking1 Sample.booking2
           (Sample.t10h - Sample.hours 3) (Sample.t10h - Sample.hours 3)
           (Sample.create Sample.t10h (Some 60))
           (Sample.create Sample.t10h (Some 60))
           Sample.empty Sample.coach Sample.t10h Sample.t10h).
  - reflexivity.
  - reflexivity.
  - reflexivity.
  - reflexivity.
  - by_compute.
  - vm_compute. split; [discriminate | reflexivity].
  - reflexivity.
Defined.

End SameSlot.

(** * Further properties of the session service *)

Section BookingCreation.
Import SessionService.










End BookingCreation.

Section BookingStatusChanges.
Import SessionService.

(** What the conflict check finds after the status of one booking has been
    rewritten: the other bookings as before, and the rewritten one only if
    its new status is neither cancelled nor completed. *)
Lemma conflicts_after_status_change db id st now b c s :
  bookings db !! id = Some b →
  reports_conflict
    (with_bookings db (<[id := Booking.set_status st now b]> (bookings db))) c s
  ↔ (∃ id' b', id' ≠ id ∧ bookings db !! id' = Some b' ∧ conflict_where c s b')
    ∨ (active st ∧ Booking.coach_id b = c
       ∧ Booking.starts_at b <= s < Booking.ends_at b).
Proof.
  intros Hb. rewrite select_conflicts_nonempty. simpl. split.
  - intros (id' & b' & Hb' & Hw).
    destruct (decide (id' = id)) as [-> | Hne].
    + rewrite lookup_insert_eq in Hb'. injection Hb' as <-. right.
      destruct Hw as (Hco & H1 & H2 & Ha).
      unfold Booking.ends_at in *. simpl in *. repeat split; [done.. | lia].
    + rewrite lookup_insert_ne in Hb' by done. left. eauto.
  - intros [(id' & b' & Hne & Hb' & Hw) | (Ha & Hco & Hin)].
    + exists id', b'. split; [| done]. by rewrite lookup_insert_ne.
    + eexists id, _. split; [apply lookup_insert_eq |].
      unfold conflict_where, Booking.ends_at in *. simpl.
      repeat split; [done | lia | lia | done].
Qed.

(** X4. A cancelled booking no longer holds its slot: after a successful
    cancellation the conflict check finds exactly the conflicts with the other
    bookings.  After a successful status update the booking holds its slot
    exactly when the status written is neither cancelled nor completed, so a
    cancelled booking that is set back to confirmed blocks again. *)
Theorem status_decides_what_a_booking_blocks id now req creq db b c s str st :
  bookings db !! id = Some b →
  us_status req = Some str → status_of_string str = Some st →
  let others :=
    ∃ id' b', id' ≠ id ∧ bookings db !! id' = Some b' ∧ conflict_where c s b' in
  let oc := post_booking_cancel id now creq db in
  let o := put_booking_status id now req db in
  (code (response oc) = 200 → (reports_conflict (db_after oc) c s ↔ others))
  ∧ (code (response o) = 200 →
       (reports_conflict (db_after o) c s
        ↔ others ∨ (st ≠ cancelled ∧ st ≠ completed ∧ Booking.coach_id b = c
                    ∧ Booking.starts_at b <= s < Booking.ends_at b))).
Proof.
  intros Hb Hreq Hst. cbv zeta. split.
  - rewrite (cancel_outcome id now creq db b Hb).
    destruct (_ && _); [done |]. intros _. simpl.
    rewrite (conflicts_after_status_change db id cancelled now b c s Hb).
    split; [| tauto]. intros [H | (Ha & _)]; [done |].
    apply active_iff in Ha. tauto.
  - intros H200.
    destruct (includes validStatuses str) eqn:Hin.
    + destruct (put_status_valid id now req db str Hreq Hin) as (st' & Hst' & _ & E).
      assert (st' = st) as -> by congruence.
      rewrite E, Hb. simpl.
      rewrite (conflicts_after_status_change db id st now b c s Hb).
      rewrite active_iff. tauto.
    + assert (Hv : ErrValidation db (put_booking_status id now req db)).
      { apply put_status_invalid. intros str' Hstr'. congruence. }
      destruct Hv as [H400 _]. rewrite H400 in H200. done.
Qed.

Lemma status_decides_what_a_booking_blocks_witness :
  let db := Sample.with_booking (Sample.t10h + Sample.hours 30) 60 confirmed in
  let oc := post_booking_cancel Sample.booking1 Sample.t10h (mkCancel None None) db in
  ¬ reports_conflict (db_after oc) Sample.coach (Sample.t10h + Sample.hours 30).
Proof.
  cbv zeta. intros H.
  destruct (status_decides_what_a_booking_blocks Sample.booking1 Sample.t10h
              (mkUpdateStatus (Some "completed") None) (mkCancel None None)
              (Sample.with_booking (Sample.t10h + Sample.hours 30) 60 confirmed)
              (Sample.booking_at (Sample.t10h + Sample.hours 30) 60 confirmed)
              Sample.coach (Sample.t10h + Sample.hours 30) "completed" completed
              eq_refl eq_refl eq_refl) as [Hcancel _].
  apply (Hcancel eq_refl) in H.
  destruct H as (id' & b' & Hne & Hb' & _).
  unfold Sample.with_booking in Hb'. simpl in Hb'.
  apply lookup_singleton_Some in Hb' as [Hid _]. by destruct Hne.
Defined.

(** X5. The answers of a status update, with the id of the path as it
    arrives.  A status that is missing, empty or not one of confirmed,
    in_progress, completed, cancelled is refused with 400 before the id is
    looked at; with a listed status, an id that is no uuid is answered 500, a
    uuid without a booking 404, and a uuid with a booking 200, whatever its
    spelling.  Only the answer 200 changes anything. *)
Theorem status_update_answers id now req db :
  let o := Wire.put_booking_status id now req db in
  let listed :=
    ∃ str, us_status req = Some str
           ∧ (str = "confirmed" ∨ str = "in_progress" ∨ str = "completed"
              ∨ str = "cancelled") in
  (code (response o) = 400 ↔ ¬ listed)
  ∧ (code (response o) = 500 ↔ listed ∧ uuid_in id = None)
  ∧ (code (response o) = 404
     ↔ listed ∧ ∃ key, uuid_in id = Some key ∧ bookings db !! key = None)
  ∧ (code (response o) = 200
     ↔ listed ∧ ∃ key, uuid_in id = Some key ∧ is_Some (bookings db !! key))
  ∧ (code (response o) ≠ 200 → db_after o = db).
Proof.
  cbv zeta. unfold Wire.put_booking_status.
  set (listed str0 := str0 = "confirmed" ∨ str0 = "in_progress"
                      ∨ str0 = "completed" ∨ str0 = "cancelled").
  assert (Hrefused : ∀ msg,
    ¬ (∃ str, us_status req = Some str ∧ listed str) →
    let o := reject db 400 msg in
    (code (response o) = 400 ↔ ¬ ∃ str, us_status req = Some str ∧ listed str)
    ∧ (code (response o) = 500
       ↔ (∃ str, us_status req = Some str ∧ listed str) ∧ uuid_in id = None)
    ∧ (code (response o) = 404
       ↔ (∃ str, us_status req = Some str ∧ listed str)
         ∧ ∃ key, uuid_in id = Some key ∧ bookings db !! key = None)
    ∧ (code (response o) = 200
       ↔ (∃ str, us_status req = Some str ∧ listed str)
         ∧ ∃ key, uuid_in id = Some key ∧ is_Some (bookings db !! key))
    ∧ (code (response o) ≠ 200 → db_after o = db)).
  { intros msg Hnl. simpl.
    split; [tauto |]. split; [split; [done | tauto] |].
    split; [split; [done | tauto] |]. split; [split; [done | tauto] | done]. }
  destruct (us_status req) as [str|] eqn:Hreq.
  2: { apply Hrefused. by intros (str & ? & _). }
  destruct (truthy (Some str)) eqn:Ht; cbn [negb].
  2: { apply Hrefused. intros (str' & [= <-] & Hl).
       simpl in Ht. apply negb_false_iff, String.eqb_eq in Ht. subst str.
       unfold listed in Hl. by destruct Hl as [? | [? | [? | ?]]]. }
  assert (Hlisted : includes validStatuses str = true ↔ listed str).
  { unfold includes, validStatuses, listed. simpl.
    rewrite !orb_true_iff, !String.eqb_eq. intuition discriminate. }
  destruct (includes validStatuses str) eqn:Hin; cbn [negb].
  2: { apply Hrefused. intros (str' & [= <-] & Hl).
       apply Hlisted in Hl. congruence. }
  assert (Hl : ∃ str0, Some str = Some str0 ∧ listed str0).
  { exists str. split; [done |]. by apply Hlisted. }
  destruct (uuid_in id) as [key|] eqn:Hu.
  - destruct (put_status_valid key now req db str Hreq Hin) as (st & _ & _ & ->).
    destruct (bookings db !! key) as [b|] eqn:Hb; simpl.
    + split; [split; [done | tauto] |].
      split; [split; [done | by intros (_ & ?)] |].
      split; [split; [done | intros (_ & key' & [= <-] & ?); congruence] |].
      split; [| done]. split; [| done]. intros _. split; [done |].
      exists key. split; [done |]. rewrite Hb. eauto.
    + split; [split; [done | tauto] |].
      split; [split; [done | by intros (_ & ?)] |].
      split; [split; [| done] |].
      * intros _. split; [done |]. by exists key.
      * split; [| done]. split; [done |].
        intros (_ & key' & [= <-] & [? ?]). congruence.
  - simpl. split; [split; [done | tauto] |].
    split; [split; [done | done] |].
    split; [split; [done | by intros (_ & ? & ? & _)] |].
    split; [split; [done | by intros (_ & ? & ? & _)] | done].
Qed.

(** The booking is found under another spelling of its id, and the status
    written is the one asked for. *)
Lemma status_update_answers_witness :
  let db := Sample.with_booking Sample.t10h 60 confirmed in
  let o := Wire.put_booking_status "{11111111-1111-4111-8111-111111111111}"
             Sample.t10h (mkUpdateStatus (Some "completed") None) db in
  let o' := Wire.put_booking_status "booking-1" Sample.t10h
              (mkUpdateStatus (Some "completed") None) db in
  code (response o) = 200 ∧ code (response o') = 500 ∧ db_after o' = db.
Proof.
  cbv zeta.
  destruct (status_update_answers "{11111111-1111-4111-8111-111111111111}"
              Sample.t10h (mkUpdateStatus (Some "completed") None)
              (Sample.with_booking Sample.t10h 60 confirmed))
    as (_ & _ & _ & H200 & _).
  destruct (status_update_answers "booking-1"
              Sample.t10h (mkUpdateStatus (Some "completed") None)
              (Sample.with_booking Sample.t10h 60 confirmed))
    as (_ & H500 & _ & _ & Hkeep).
  assert (Hl : ∃ str, us_status (mkUpdateStatus (Some "completed") None) = Some str
                      ∧ (str = "confirmed" ∨ str = "in_progress"
                         ∨ str = "completed" ∨ str = "cancelled")).
  { exists "completed". split; [reflexivity |]. right. right. by left. }
  split; [| split].
  - apply H200. split; [exact Hl |].
    exists Sample.booking1. split; [reflexivity |].
    by exists (Sample.booking_at Sample.t10h 60 confirmed).
  - apply H500. split; [exact Hl | reflexivity].
  - apply Hkeep. vm_compute. discriminate.
Defined.

(** Cancelling at a uuid, twice. *)
Lemma cancelling_again_for_uuid key now now' req req' db :
  let o := post_booking_cancel key now req db in
  let o' := post_booking_cancel key now' req' (db_after o) in
  (code (response o) = 404 ↔ bookings db !! key = None)
  ∧ code (response o) ≠ 500
  ∧ (code (response o) ≠ 200 → db_after o = db)
  ∧ (code (response o) = 200 →
       code (response o') = 200
       ∧ Booking.status <$> bookings (db_after o') !! key = Some cancelled).
Proof.
  cbv zeta.
  destruct (bookings db !! key) as [b|] eqn:Hb.
  - pose proof (cancel_outcome key now req db b Hb) as E. cbv zeta in E.
    rewrite E. destruct (_ && _); simpl; [by split; [split |] |].
    split; [by split |]. split; [done |]. split; [done |]. intros _.
    erewrite cancel_outcome by (simpl; apply lookup_insert_eq).
    cbv zeta. simpl. rewrite andb_false_r. simpl.
    by rewrite lookup_insert_eq.
  - assert (E : post_booking_cancel key now req db
                = reject db 404 "Booking not found")
      by (unfold post_booking_cancel; by rewrite Hb).
    rewrite E. simpl. by split; [split |].
Qed.

(** X6. A cancellation, with the id of the path as it arrives, is answered
    500 exactly when the id is no uuid and 404 exactly when it is a uuid
    without a booking; neither writes anything.  Once a booking is cancelled,
    cancelling it again, under any spelling of its id and at any later time,
    succeeds and leaves it cancelled. *)
Theorem cancelling_again_succeeds id id' now now' req req' db :
  let o := Wire.post_booking_cancel id now req db in
  let o' := Wire.post_booking_cancel id' now' req' (db_after o) in
  (code (response o) = 500 ↔ uuid_in id = None)
  ∧ (code (response o) = 404
     ↔ ∃ key, uuid_in id = Some key ∧ bookings db !! key = None)
  ∧ (code (response o) ≠ 200 → db_after o = db)
  ∧ (code (response o) = 200 → uuid_in id' = uuid_in id →
       code (response o') = 200
       ∧ ∃ key, uuid_in id = Some key
                ∧ Booking.status <$> bookings (db_after o') !! key
                  = Some cancelled).
Proof.
  cbv zeta. unfold Wire.post_booking_cancel.
  destruct (uuid_in id) as [key|] eqn:Hu.
  - destruct (cancelling_again_for_uuid key now now' req req' db)
      as (H404 & H500 & Hkeep & Hagain).
    split; [split; [done | done] |].
    split; [rewrite H404; split; [eauto | by intros (key' & [= <-] & ?)] |].
    split; [exact Hkeep |].
    intros H200 ->. destruct (Hagain H200) as [H1 H2]. eauto.
  - simpl. split; [done |]. split; [split; [done | by intros (? & ? & _)] |].
    split; done.
Qed.

Lemma cancelling_again_succeeds_witness :
  let db := Sample.with_booking (Sample.t10h + Sample.hours 3) 60 confirmed in
  let o := Wire.post_booking_cancel "11111111-1111-4111-8111-111111111111"
             Sample.t10h (mkCancel None None) db in
  let o' := Wire.post_booking_cancel "{11111111111141118111111111111111}"
              (Sample.t10h + Sample.hours 2) (mkCancel None None) (db_after o) in
  code (response o') = 200
  ∧ ∃ key, uuid_in "11111111-1111-4111-8111-111111111111" = Some key
           ∧ Booking.status <$> bookings (db_after o') !! key = Some cancelled.
Proof.
  cbv zeta.
  apply (cancelling_again_succeeds "11111111-1111-4111-8111-111111111111"
           "{11111111111141118111111111111111}" Sample.t10h
           (Sample.t10h + Sample.hours 2) (mkCancel None None) (mkCancel None None)
           (Sample.with_booking (Sample.t10h + Sample.hours 3) 60 confirmed)).
  - reflexivity.
  - reflexivity.
Defined.



End BookingStatusChanges.

(** * Further properties of the payment service *)

Section IntentStatusChanges.
Import PaymentService.

Lemma confirm_outcome id now db p :
  payment_intents db !! id = Some p →
  post_confirm id now db =
    mkOutcome
      (mkResponse 200 (JPayment "succeeded" "Payment authorized successfully"))
      (with_payment_intents db
         (<[id := PaymentIntent.set_status authorized now p]> (payment_intents db)))
      [StripeConfirm (PaymentIntent.provider_intent_id p);
       PaymentAuthorized id (PaymentIntent.booking_id p)].
Proof.
  intros Hp. unfold post_confirm. rewrite Hp.
  by rewrite (update_payment_status_Some _ _ _ _ _ Hp).
Qed.

(** X11. Confirm looks at no status.  With the id of the path as it
    arrives, it answers 200 exactly when the id is a uuid with an intent, and
    then stores that intent with the status authorized, whatever it was
    (captured and refunded included), changing besides only the update time,
    and calls the provider's confirm once. *)
Theorem confirm_authorizes_from_any_status id now db :
  let o := Wire.post_confirm id now db in
  (code (response o) = 200
   ↔ ∃ key, uuid_in id = Some key ∧ is_Some (payment_intents db !! key))
  ∧ (∀ key p, uuid_in id = Some key → payment_intents db !! key = Some p →
       payment_intents (db_after o)
       = <[key := PaymentIntent.mk (PaymentIntent.booking_id p)
                    (PaymentIntent.provider p) authorized (PaymentIntent.amount p)
                    (PaymentIntent.currency p) (PaymentIntent.provider_intent_id p)
                    (PaymentIntent.created_at p) now]> (payment_intents db)
       ∧ PaymentIntent.status <$> payment_intents (db_after o) !! key
         = Some authorized
       ∧ filter is_provider_call (effects o)
         = [StripeConfirm (PaymentIntent.provider_intent_id p)]).
Proof.
  cbv zeta. unfold Wire.post_confirm.
  destruct (uuid_in id) as [key|] eqn:Hu.
  - destruct (payment_intents db !! key) as [p|] eqn:Hp.
    + rewrite (confirm_outcome key now db p Hp). simpl. split.
      * split; [| done]. intros _. exists key. by rewrite Hp.
      * intros key' p' [= <-] Hp'. assert (p' = p) as -> by congruence.
        split; [done |]. split; [| done]. by rewrite lookup_insert_eq.
    + unfold post_confirm. rewrite Hp. simpl. split.
      * split; [done |]. intros (key' & [= <-] & [? ?]). congruence.
      * intros key' p' [= <-] Hp'. congruence.
  - simpl. split; [| done]. split; [done | by intros (? & ? & _)].
Qed.

(** A refunded intent, addressed between braces, is authorized again. *)
Lemma confirm_authorizes_from_any_status_witness :
  let db := Sample.with_intent refunded in
  let o := Wire.post_confirm "{33333333-3333-4333-8333-333333333333}"
             Sample.t10h db in
  payment_intents (db_after o)
  = <[Sample.intent1 :=
        PaymentIntent.mk Sample.booking1 "stripe" authorized 50 "USD"
          "pi_mock_1768000000000" 0 Sample.t10h]> (payment_intents db)
  ∧ PaymentIntent.status <$> payment_intents (db_after o) !! Sample.intent1
    = Some authorized
  ∧ filter is_provider_call (effects o) = [StripeConfirm "pi_mock_1768000000000"].
Proof.
  cbv zeta.
  destruct (confirm_authorizes_from_any_status
              "{33333333-3333-4333-8333-333333333333}" Sample.t10h
              (Sample.with_intent refunded)) as [_ H].
  exact (H Sample.intent1 (Sample.intent refunded) eq_refl eq_refl).
Defined.

(** X12. With the id of the path as it arrives, Confirm, Capture and Refund
    answer 500 exactly when the id is no uuid and 404 exactly when it is a
    uuid without an intent; in both cases they write nothing and call no
    provider. *)
Theorem unknown_intent_is_not_found id now req db :
  let answers (o : Outcome) :=
    (code (response o) = 500 ↔ uuid_in id = None)
    ∧ (code (response o) = 404
       ↔ ∃ key, uuid_in id = Some key ∧ payment_intents db !! key = None)
    ∧ (code (response o) = 500 ∨ code (response o) = 404 →
         db_after o = db ∧ filter is_provider_call (effects o) = []) in
  answers (Wire.post_confirm id now db)
  ∧ answers (Wire.post_capture id now db)
  ∧ answers (Wire.post_refund id now req db).
Proof.
  cbv zeta. unfold Wire.post_confirm, Wire.post_capture, Wire.post_refund.
  destruct (uuid_in id) as [key|] eqn:Hu.
  2: { simpl. repeat split; try done; by intros (? & ? & _). }
  destruct (payment_intents db !! key) as [p|] eqn:Hp.
  - rewrite (confirm_outcome key now db p Hp),
      (capture_outcome key now db p Hp), (refund_outcome key now req db p Hp).
    assert (Hno : ¬ ∃ key', Some key = Some key' ∧ payment_intents db !! key' = None).
    { intros (key' & [= <-] & ?). congruence. }
    split; [| split].
    + simpl. split; [by split |]. split; [by split |]. by intros [? | ?].
    + case_bool_decide; simpl;
        (split; [by split |]; split; [by split |]; by intros [? | ?]).
    + case_bool_decide; simpl;
        (split; [by split |]; split; [by split |]; by intros [? | ?]).
  - unfold post_confirm, post_capture, post_refund. rewrite Hp. simpl.
    repeat split; try done; eauto.
Qed.

Lemma unknown_intent_is_not_found_witness :
  let o := Wire.post_capture "intent-1" Sample.t10h (Sample.with_intent authorized) in
  let o' := Wire.post_refund Sample.booking1 Sample.t10h (mkRefund None None)
              (Sample.with_intent captured) in
  code (response o) = 500 ∧ code (response o') = 404
  ∧ db_after o' = Sample.with_intent captured.
Proof.
  cbv zeta.
  destruct (unknown_intent_is_not_found "intent-1" Sample.t10h (mkRefund None None)
              (Sample.with_intent authorized)) as (_ & (H500 & _ & _) & _).
  destruct (unknown_intent_is_not_found Sample.booking1 Sample.t10h
              (mkRefund None None) (Sample.with_intent captured))
    as (_ & _ & (_ & H404 & Hkeep)).
  assert (H : code (response (Wire.post_refund Sample.booking1 Sample.t10h
                                (mkRefund None None) (Sample.with_intent captured)))
              = 404).
  { apply H404. exists Sample.booking1. split; reflexivity. }
  split; [apply H500; reflexivity |]. split; [exact H |].
  apply Hkeep. by right.
Defined.

(** X13. Directly after a successful refund, Capture and a second Refund of
    the intent are answered 400 and write nothing.  Confirm is not held back:
    after refund, confirm and capture, a second refund succeeds. *)
Theorem refund_is_final_until_confirmed id now n1 n2 n3 n4 req req' db :
  let o := post_refund id now req db in
  let o1 := post_confirm id n2 (db_after o) in
  let o2 := post_capture id n3 (db_after o1) in
  let o3 := post_refund id n4 req' (db_after o2) in
  code (response o) = 200 →
  post_capture id n1 (db_after o) = reject (db_after o) 400 capture_message
  ∧ post_refund id n1 req' (db_after o) = reject (db_after o) 400 refund_message
  ∧ code (response o1) = 200
  ∧ code (response o2) = 200
  ∧ code (response o3) = 200
  ∧ PaymentIntent.status <$> payment_intents (db_after o3) !! id = Some refunded.
Proof.
  cbv zeta. intros H200.
  destruct (payment_intents db !! id) as [p|] eqn:Hp.
  - rewrite (refund_outcome id now req db p Hp) in *.
    case_bool_decide; [| done]. simpl.
    erewrite capture_outcome by (simpl; apply lookup_insert_eq).
    erewrite refund_outcome by (simpl; apply lookup_insert_eq).
    rewrite !bool_decide_eq_false_2 by done.
    split; [done |]. split; [done |].
    erewrite confirm_outcome by (simpl; apply lookup_insert_eq). simpl.
    split; [done |].
    erewrite capture_outcome by (simpl; apply lookup_insert_eq).
    rewrite bool_decide_eq_true_2 by done. simpl.
    split; [done |].
    erewrite refund_outcome by (simpl; apply lookup_insert_eq).
    rewrite bool_decide_eq_true_2 by done. simpl.
    split; [done |]. by rewrite lookup_insert_eq.
  - unfold post_refund in H200. by rewrite Hp in H200.
Qed.

Lemma refund_is_final_until_confirmed_witness :
  let o := post_refund Sample.intent1 1 (mkRefund None None)
             (Sample.with_intent captured) in
  let o1 := post_confirm Sample.intent1 3 (db_after o) in
  let o2 := post_capture Sample.intent1 4 (db_after o1) in
  let o3 := post_refund Sample.intent1 5 (mkRefund (Some 5%Q) None) (db_after o2) in
  post_capture Sample.intent1 2 (db_after o)
  = reject (db_after o) 400 capture_message
  ∧ post_refund Sample.intent1 2 (mkRefund (Some 5%Q) None) (db_after o)
    = reject (db_after o) 400 refund_message
  ∧ code (response o1) = 200
  ∧ code (response o2) = 200
  ∧ code (response o3) = 200
  ∧ PaymentIntent.status <$> payment_intents (db_after o3) !! Sample.intent1
    = Some refunded.
Proof.
  cbv zeta.
  apply (refund_is_final_until_confirmed Sample.intent1 1 2 3 4 5
           (mkRefund None None) (mkRefund (Some 5%Q) None)
           (Sample.with_intent captured)).
  reflexivity.
Defined.

(** X14. A Confirm between two Captures lets the second one through: the same
    provider intent is captured twice. *)
Theorem confirm_reopens_capture id n1 n2 n3 db :
  let o1 := post_capture id n1 db in
  let o2 := post_confirm id n2 (db_after o1) in
  let o3 := post_capture id n3 (db_after o2) in
  code (response o1) = 200 →
  code (response o2) = 200 ∧ code (response o3) = 200
  ∧ ∃ p, payment_intents db !! id = Some p
         ∧ filter is_provider_call (effects o1 ++ effects o2 ++ effects o3)%list
           = [StripeCapture (PaymentIntent.provider_intent_id p);
              StripeConfirm (PaymentIntent.provider_intent_id p);
              StripeCapture (PaymentIntent.provider_intent_id p)].
Proof.
  cbv zeta. intros H200.
  destruct (payment_intents db !! id) as [p|] eqn:Hp.
  - rewrite (capture_outcome id n1 db p Hp) in *.
    case_bool_decide; [| done]. simpl.
    erewrite confirm_outcome by (simpl; apply lookup_insert_eq). simpl.
    erewrite capture_outcome by (simpl; apply lookup_insert_eq).
    rewrite bool_decide_eq_true_2 by done. simpl. eauto.
  - unfold post_capture in H200. by rewrite Hp in H200.
Qed.

Lemma confirm_reopens_capture_witness :
  let o1 := post_capture Sample.intent1 1 (Sample.with_intent authorized) in
  let o2 := post_confirm Sample.intent1 2 (db_after o1) in
  let o3 := post_capture Sample.intent1 3 (db_after o2) in
  code (response o2) = 200 ∧ code (response o3) = 200
  ∧ ∃ p, payment_intents (Sample.with_intent authorized) !! Sample.intent1 = Some p
         ∧ filter is_provider_call (effects o1 ++ effects o2 ++ effects o3)%list
           = [StripeCapture (PaymentIntent.provider_intent_id p);
              StripeConfirm (PaymentIntent.provider_intent_id p);
              StripeCapture (PaymentIntent.provider_intent_id p)].
Proof.
  cbv zeta.
  apply (confirm_reopens_capture Sample.intent1 1 2 3 (Sample.with_intent authorized)).
  reflexivity.
Defined.

(** X15. Confirm, Capture and Refund touch one row: every other payment intent is
    after the request exactly what it was before, and no intent appears or
    disappears. *)
Theorem status_changes_touch_one_intent id now req db :
  let only_at (o : Outcome) :=
    (∀ pid, pid ≠ id →
            payment_intents (db_after o) !! pid = payment_intents db !! pid)
    ∧ dom (payment_intents (db_after o)) = dom (payment_intents db) in
  only_at (post_confirm id now db)
  ∧ only_at (post_capture id now db)
  ∧ only_at (post_refund id now req db).
Proof.
  cbv zeta.
  assert (Hupd : ∀ s,
    (∀ pid, pid ≠ id →
       payment_intents (update_payment_status db id s now) !! pid
       = payment_intents db !! pid)
    ∧ dom (payment_intents (update_payment_status db id s now))
      = dom (payment_intents db)).
  { intros s. unfold update_payment_status. simpl. split.
    - intros pid Hne. by rewrite lookup_alter_ne.
    - apply dom_alter_L. }
  unfold post_confirm, post_capture, post_refund.
  destruct (payment_intents db !! id) as [p|] eqn:Hp; [| done].
  split; [apply Hupd |]. split.
  - destruct (negb _); [done | apply Hupd].
  - destruct (negb _); [done | apply Hupd].
Qed.

Lemma status_changes_touch_one_intent_witness :
  let o := post_capture Sample.intent1 Sample.t10h (Sample.with_intent authorized) in
  payment_intents (db_after o) !! Sample.booking1
  = payment_intents (Sample.with_intent authorized) !! Sample.booking1.
Proof.
  cbv zeta.
  destruct (status_changes_touch_one_intent Sample.intent1 Sample.t10h
              (mkRefund None None) (Sample.with_intent authorized))
    as (_ & [H _] & _).
  apply H. vm_compute. discriminate.
Defined.

End IntentStatusChanges.

(** ** POST /payment-intents and GET /payment-intents/:id *)

Section IntentCreation.

(** X16. A request without a booking id, with an empty one, without an amount or
    with the amount 0 is refused with 400 before anything is done: nothing is
    stored and the provider is not called.  No other request is answered
    400. *)
Theorem intent_needs_booking_id_and_amount paymentId t1 t2 now req db :
  let o := PaymentIntents.post_payment_intents paymentId t1 t2 now req db in
  (PaymentIntents.code o = 400
   ↔ truthy (PaymentIntents.bookingId req) = false
     ∨ PaymentIntents.truthy_number (PaymentIntents.amount req) = false)
  ∧ (PaymentIntents.code o = 400 →
       PaymentIntents.body o
       = PaymentIntents.JError "Booking ID and amount are required"
       ∧ PaymentIntents.db_after o = db
       ∧ PaymentIntents.provider_intents o = []).
Proof.
  cbv zeta. unfold PaymentIntents.post_payment_intents.
  destruct (PaymentIntents.bookingId req) as [b|]; simpl.
  2: { split; [split; [intros _; by left | done] | done]. }
  destruct (PaymentIntents.amount req) as [a|]; simpl.
  2: { split; [split; [intros _; by right | done] | done]. }
  destruct (negb (b =? ""))%string eqn:Hb; simpl.
  2: { split; [split; [intros _; by left | done] | done]. }
  destruct (negb (Qeq_bool a 0)) eqn:Ha; simpl.
  2: { split; [split; [intros _; by right | done] | done]. }
  destruct (insert_payment_intent _ _ _ _ _ _ _) as [[db' row]|]; simpl.
  - split; [split; [done | by intros [? | ?]] | done].
  - split; [split; [done | by intros [? | ?]] | done].
Qed.

Lemma intent_needs_booking_id_and_amount_witness :
  let req := PaymentIntents.mkCreate (Some Sample.booking1) (Some 0%Q) None None in
  let db := Sample.with_booking Sample.t10h 60 confirmed in
  let o := PaymentIntents.post_payment_intents Sample.intent1 1 2 3 req db in
  PaymentIntents.body o
  = PaymentIntents.JError "Booking ID and amount are required"
  ∧ PaymentIntents.db_after o = db
  ∧ PaymentIntents.provider_intents o = [].
Proof.
  cbv zeta.
  apply (intent_needs_booking_id_and_amount Sample.intent1 1 2 3
           (PaymentIntents.mkCreate (Some Sample.booking1) (Some 0%Q) None None)
           (Sample.with_booking Sample.t10h 60 confirmed)).
  reflexivity.
Defined.

Lemma insert_payment_intent_Some db id b a cur pi now db' row :
  insert_payment_intent db id b a cur pi now = Some (db', row) ↔
  ∃ a' cur' pi',
    decimal_10_2 a = Some a' ∧ varchar 3 cur = Some cur'
    ∧ varchar 255 pi = Some pi'
    ∧ payment_intents db !! id = None
    ∧ is_Some (bookings db !! b)
    ∧ row = PaymentIntent.mk b "stripe" requires_action a' cur' pi' now now
    ∧ db' = with_payment_intents db (<[id := row]> (payment_intents db)).
Proof.
  unfold insert_payment_intent.
  change (varchar 50 "stripe") with (Some "stripe").
  destruct (decimal_10_2 a) as [a'|];
    [| split; [done | by intros (? & ? & ? & ? & _)]].
  destruct (varchar 3 cur) as [cur'|];
    [| split; [done | by intros (? & ? & ? & _ & ? & _)]].
  destruct (varchar 255 pi) as [pi'|];
    [| split; [done | by intros (? & ? & ? & _ & _ & ? & _)]].
  destruct (decide (is_Some (payment_intents db !! id))) as [Hused | Hfresh].
  { split; [done |]. intros (? & ? & ? & _ & _ & _ & Hn & _).
    rewrite Hn in Hused. by destruct Hused. }
  apply eq_None_not_Some in Hfresh.
  destruct (decide (is_Some (bookings db !! b))) as [Hbk | Hbk].
  - split.
    + intros [= <- <-]. by exists a', cur', pi'.
    + intros (? & ? & ? & [= <-] & [= <-] & [= <-] & _ & _ & -> & ->). done.
  - split; [done |]. by intros (? & ? & ? & _ & _ & _ & _ & ? & _).
Qed.



End IntentCreation.

Section StoredAmount.

Lemma round_half_away_bounds n (d : positive) :
  let c := round_half_away (n # d) in
  - Zpos d <= 2 * n - 2 * Zpos d * c <= Zpos d.
Proof.
  cbv zeta. unfold round_half_away. simpl.
  pose proof (Z.div_mod (2 * Z.abs n + Zpos d) (2 * Zpos d) ltac:(lia)) as Hdm.
  pose proof (Z.mod_pos_bound (2 * Z.abs n + Zpos d) (2 * Zpos d) ltac:(lia)) as Hm.
  set (k := (2 * Z.abs n + Zpos d) / (2 * Zpos d)) in *.
  destruct (Z.sgn_spec n) as [(Hn & ->) | [(Hn & ->) | (Hn & ->)]]; nia.
Qed.

(** X18. What DECIMAL(10,2) stores: a whole number of cents, below 10^8 in
    absolute value and at most half a cent away from the amount of the
    request. *)
Theorem stored_amount_is_rounded_to_cents q r :
  decimal_10_2 q = Some r →
  ∃ cents, r = (cents # 100)%Q
           ∧ Z.abs cents < 10 ^ 10
           ∧ (q - (1 # 200) <= r <= q + (1 # 200))%Q.
Proof.
  unfold decimal_10_2. destruct (Z.ltb_spec (Z.abs (round_half_away (q * 100))) (10 ^ 10));
    [| done].
  intros [= <-]. eexists. split; [reflexivity |]. split; [done |].
  destruct q as [n d].
  pose proof (round_half_away_bounds (n * 100) (d * 1)) as Hb. cbv zeta in Hb.
  change ((n # d) * 100)%Q with (n * 100 # d * 1)%Q.
  set (c := round_half_away (n * 100 # d * 1)) in *.
  unfold Qle, Qminus, Qplus, Qopp. simpl.
  rewrite Pos.mul_1_r in Hb. rewrite !Pos2Z.inj_mul. lia.
Qed.

(** 1.005 is stored as 1.01, and one cent below the limit still fits. *)
Lemma stored_amount_is_rounded_to_cents_witness :
  ∃ cents, (1.01)%Q = (cents # 100)%Q
           ∧ Z.abs cents < 10 ^ 10
           ∧ ((1005 # 1000) - (1 # 200) <= 1.01 <= (1005 # 1000) + (1 # 200))%Q.
Proof.
  apply (stored_amount_is_rounded_to_cents (1005 # 1000) 1.01%Q).
  reflexivity.
Defined.

End StoredAmount.

Section EscrowLifeCycle.
Import PaymentService.

(** What a 201 of POST /payment-intents tells. *)
Lemma created_intent_inv paymentId t1 t2 now req db :
  let o := PaymentIntents.post_payment_intents paymentId t1 t2 now req db in
  PaymentIntents.code o = 201 →
  ∃ row bk,
    PaymentIntent.status row = requires_action
    ∧ PaymentIntents.bookingId req = Some (PaymentIntent.booking_id row)
    ∧ bookings db !! PaymentIntent.booking_id row = Some bk
    ∧ payment_intents db !! paymentId = None
    ∧ PaymentIntents.body o
      = PaymentIntents.JCreated paymentId
          (MockStripe.client_secret (MockStripe.create t1 t2))
          "requires_payment_method" row
    ∧ PaymentIntents.db_after o
      = with_payment_intents db (<[paymentId := row]> (payment_intents db)).
Proof.
  cbv zeta. unfold PaymentIntents.post_payment_intents.
  destruct (PaymentIntents.bookingId req) as [b|]; [| done].
  destruct (PaymentIntents.amount req) as [a|]; [| done].
  destruct (_ || _); [done |].
  destruct (insert_payment_intent _ _ _ _ _ _ _) as [[db' row]|] eqn:E; [| done].
  intros _.
  apply insert_payment_intent_Some in E
    as (a' & cur' & pi' & _ & _ & _ & Hfresh & [bk Hbk] & -> & ->).
  eexists _, bk. by repeat split.
Qed.

(** X19. The life of an intent.  A new intent can be neither captured nor
    refunded; after Confirm it can be captured, and after Capture refunded, at
    which point it is refunded. *)
Theorem escrow_life_cycle paymentId t1 t2 n0 n1 n2 n3 req rreq db :
  let o0 := PaymentIntents.post_payment_intents paymentId t1 t2 n0 req db in
  let db0 := PaymentIntents.db_after o0 in
  let o1 := post_confirm paymentId n1 db0 in
  let o2 := post_capture paymentId n2 (db_after o1) in
  let o3 := post_refund paymentId n3 rreq (db_after o2) in
  PaymentIntents.code o0 = 201 →
  post_capture paymentId n1 db0 = reject db0 400 capture_message
  ∧ post_refund paymentId n1 rreq db0 = reject db0 400 refund_message
  ∧ code (response o1) = 200
  ∧ code (response o2) = 200
  ∧ code (response o3) = 200
  ∧ PaymentIntent.status <$> payment_intents (db_after o3) !! paymentId
    = Some refunded.
Proof.
  cbv zeta. intros H201.
  destruct (created_intent_inv paymentId t1 t2 n0 req db H201)
    as (row & bk & Hst & _ & _ & _ & _ & ->).
  erewrite capture_outcome by (simpl; apply lookup_insert_eq).
  erewrite refund_outcome by (simpl; apply lookup_insert_eq).
  rewrite !bool_decide_eq_false_2 by (rewrite Hst; done).
  split; [done |]. split; [done |].
  erewrite confirm_outcome by (simpl; apply lookup_insert_eq). simpl.
  split; [done |].
  erewrite capture_outcome by (simpl; apply lookup_insert_eq).
  rewrite bool_decide_eq_true_2 by done. simpl.
  split; [done |].
  erewrite refund_outcome by (simpl; apply lookup_insert_eq).
  rewrite bool_decide_eq_true_2 by done. simpl.
  split; [done |]. by rewrite lookup_insert_eq.
Qed.

Lemma escrow_life_cycle_witness :
  let req := PaymentIntents.mkCreate (Some Sample.booking1) (Some 50%Q) None None in
  let db := Sample.with_booking Sample.t10h 60 confirmed in
  let o0 := PaymentIntents.post_payment_intents Sample.intent1 1 2 3 req db in
  let db0 := PaymentIntents.db_after o0 in
  let o1 := post_confirm Sample.intent1 4 db0 in
  let o2 := post_capture Sample.intent1 5 (db_after o1) in
  let o3 := post_refund Sample.intent1 6 (mkRefund None None) (db_after o2) in
  post_capture Sample.intent1 4 db0 = reject db0 400 capture_message
  ∧ post_refund Sample.intent1 4 (mkRefund None None) db0
    = reject db0 400 refund_message
  ∧ code (response o1) = 200
  ∧ code (response o2) = 200
  ∧ code (response o3) = 200
  ∧ PaymentIntent.status <$> payment_intents (db_after o3) !! Sample.intent1
    = Some refunded.
Proof.
  cbv zeta.
  apply (escrow_life_cycle Sample.intent1 1 2 3 4 5 6
           (PaymentIntents.mkCreate (Some Sample.booking1) (Some 50%Q) None None)
           (mkRefund None None) (Sample.with_booking Sample.t10h 60 confirmed)).
  reflexivity.
Defined.

(** X20. Round trip: the intent just created is what GET /payment-intents/:id
    returns, together with the start and the status of its booking. *)
Theorem created_intent_is_returned paymentId t1 t2 now req db :
  let o := PaymentIntents.post_payment_intents paymentId t1 t2 now req db in
  PaymentIntents.code o = 201 →
  ∃ secret status row bk,
    PaymentIntents.body o = PaymentIntents.JCreated paymentId secret status row
    ∧ bookings db !! PaymentIntent.booking_id row = Some bk
    ∧ PaymentIntents.get_payment_intent paymentId (PaymentIntents.db_after o)
      = PaymentIntents.mkOutcome 200
          (PaymentIntents.JPaymentRow row (Booking.starts_at bk) (Booking.status bk))
          (PaymentIntents.db_after o) [].
Proof.
  cbv zeta. intros H201.
  destruct (created_intent_inv paymentId t1 t2 now req db H201)
    as (row & bk & _ & _ & Hbk & _ & Hbody & Hdb).
  eexists _, _, row, bk. split; [exact Hbody |]. split; [exact Hbk |].
  rewrite Hdb. unfold PaymentIntents.get_payment_intent. simpl.
  by rewrite lookup_insert_eq, Hbk.
Qed.

Lemma created_intent_is_returned_witness :
  let req := PaymentIntents.mkCreate (Some Sample.booking1) (Some 50%Q) None None in
  let db := Sample.with_booking Sample.t10h 60 confirmed in
  let o := PaymentIntents.post_payment_intents Sample.intent1 1 2 3 req db in
  ∃ secret status row bk,
    PaymentIntents.body o = PaymentIntents.JCreated Sample.intent1 secret status row
    ∧ bookings db !! PaymentIntent.booking_id row = Some bk
    ∧ PaymentIntents.get_payment_intent Sample.intent1 (PaymentIntents.db_after o)
      = PaymentIntents.mkOutcome 200
          (PaymentIntents.JPaymentRow row (Booking.starts_at bk) (Booking.status bk))
          (PaymentIntents.db_after o) [].
Proof.
  cbv zeta.
  apply (created_intent_is_returned Sample.intent1 1 2 3
           (PaymentIntents.mkCreate (Some Sample.booking1) (Some 50%Q) None None)
           (Sample.with_booking Sample.t10h 60 confirmed)).
  reflexivity.
Defined.

(** X21. GET /payment-intents/:id, with the id of the path as it arrives,
    writes nothing.  It answers 500 exactly when the id is no uuid, 200 exactly
    when it is the uuid of an intent whose booking exists, and 404 in every
    other case; in a database that respects its foreign keys, 200 exactly when
    it is the uuid of an intent. *)
Theorem payment_lookup_answers id db :
  let o := Wire.get_payment_intent id db in
  PaymentIntents.db_after o = db
  ∧ (PaymentIntents.code o = 500 ↔ uuid_in id = None)
  ∧ (PaymentIntents.code o = 200
     ↔ ∃ key p, uuid_in id = Some key ∧ payment_intents db !! key = Some p
                ∧ is_Some (bookings db !! PaymentIntent.booking_id p))
  ∧ (PaymentIntents.code o ≠ 200 → PaymentIntents.code o ≠ 500 →
       PaymentIntents.code o = 404
       ∧ PaymentIntents.body o = PaymentIntents.JError "Payment intent not found")
  ∧ (referential_integrity db →
       (PaymentIntents.code o = 200
        ↔ ∃ key, uuid_in id = Some key ∧ is_Some (payment_intents db !! key))).
Proof.
  cbv zeta. unfold Wire.get_payment_intent.
  destruct (uuid_in id) as [key|] eqn:Hu.
  2: { simpl. split; [done |]. split; [done |].
       split; [split; [done | by intros (? & ? & ? & _)] |].
       split; [done |]. intros _. split; [done | by intros (? & ? & _)]. }
  unfold PaymentIntents.get_payment_intent.
  destruct (payment_intents db !! key) as [p|] eqn:Hp.
  - destruct (bookings db !! PaymentIntent.booking_id p) as [b|] eqn:Hb; simpl.
    + split; [done |]. split; [by split |]. split; [split; [| done] |].
      * intros _. exists key, p. by rewrite Hb.
      * split; [done |]. intros _. split; [| done]. intros _.
        exists key. by rewrite Hp.
    + split; [done |]. split; [by split |]. split; [split; [done |] |].
      * intros (key' & p' & [= <-] & Hp' & [? Hs]). congruence.
      * split; [done |]. intros [_ Hfk].
        destruct (Hfk key p Hp) as [b Hb']. congruence.
  - simpl. split; [done |]. split; [by split |].
    split; [split; [done |] |].
    + intros (key' & p' & [= <-] & Hp' & _). congruence.
    + split; [done |]. intros _. split; [done |].
      intros (key' & [= <-] & [? ?]). congruence.
Qed.

Lemma payment_lookup_answers_witness :
  let o := Wire.get_payment_intent "33333333-3333-4333-8333-333333333333"
             (Sample.with_intent captured) in
  let o' := Wire.get_payment_intent "1" (Sample.with_intent captured) in
  PaymentIntents.code o = 200 ∧ PaymentIntents.code o' = 500.
Proof.
  cbv zeta.
  destruct (payment_lookup_answers "33333333-3333-4333-8333-333333333333"
              (Sample.with_intent captured)) as (_ & _ & H & _).
  destruct (payment_lookup_answers "1" (Sample.with_intent captured))
    as (_ & H500 & _).
  split.
  - apply H. exists Sample.intent1, (Sample.intent captured).
    split; [reflexivity |]. split; [reflexivity |].
    by exists (Sample.booking_at Sample.t10h 60 confirmed).
  - apply H500. reflexivity.
Defined.

End EscrowLifeCycle.

(** * Sequences of requests *)

Section Sequences.

Lemma insert_booking_inr_keys db id b db' :
  insert_booking db id b = inr db' →
  bookings db !! id = None
  ∧ Booking.player_id b ∈ users db ∧ Booking.coach_id b ∈ coaches db
  ∧ db' = with_bookings db (<[id := b]> (bookings db)).
Proof.
  unfold insert_booking. intros H.
  destruct (decide (is_Some (bookings db !! id))) as [|Hn]; [done |].
  destruct (decide _) as [[? ?] |]; [| done].
  apply eq_None_not_Some in Hn. injection H as <-. done.
Qed.

(** Every request leaves the database in one of the five ways. *)
Lemma perform_written c db : written db (perform c db).
Proof.
  destruct c as [bookingId now req | id now req | id now req
                | paymentId t1 t2 now req | id now | id now | id now req]; simpl.
  - unfold SessionService.post_bookings.
    destruct (SessionService.post_bookings_check req db) as [o | p c s d tz] eqn:E.
    + apply check_keeps_db in E as [-> _]. constructor.
    + unfold SessionService.post_bookings_insert.
      destruct (insert_booking db bookingId _) as [e | db'] eqn:Ei; simpl.
      * constructor.
      * apply insert_booking_inr_keys in Ei as (Hfresh & Hp & Hc & ->).
        by constructor.
  - destruct (SessionService.us_status req) as [str|] eqn:Hreq.
    + destruct (includes SessionService.validStatuses str) eqn:Hin.
      * destruct (put_status_valid id now req db str Hreq Hin) as (s & _ & Hne & ->).
        destruct (bookings db !! id) as [b|] eqn:Hb; simpl; by constructor.
      * assert (Hv : ErrValidation db (SessionService.put_booking_status id now req db)).
        { apply put_status_invalid. intros str' Hstr'. congruence. }
        destruct Hv as [_ ->]. constructor.
    + unfold SessionService.put_booking_status. rewrite Hreq. constructor.
  - destruct (bookings db !! id) as [b|] eqn:Hb.
    + rewrite (cancel_outcome id now req db b Hb).
      destruct (_ && _); simpl; by constructor.
    + unfold SessionService.post_booking_cancel. rewrite Hb. constructor.
  - destruct (decide (PaymentIntents.code
                        (PaymentIntents.post_payment_intents paymentId t1 t2 now req db)
                      = 201)) as [H201 | Hnot].
    + destruct (created_intent_inv paymentId t1 t2 now req db H201)
        as (row & bk & Hst & _ & Hbk & Hfresh & _ & ->).
      constructor; [done | by exists bk | done].
    + revert Hnot. unfold PaymentIntents.post_payment_intents.
      destruct (PaymentIntents.bookingId req) as [b|]; [| constructor].
      destruct (PaymentIntents.amount req) as [a|]; [| constructor].
      destruct (_ || _); [constructor |].
      destruct (insert_payment_intent _ _ _ _ _ _ _) as [[db' row]|]; simpl;
        [done | constructor].
  - destruct (payment_intents db !! id) as [p|] eqn:Hp.
    + rewrite (confirm_outcome id now db p Hp). simpl. by constructor.
    + unfold PaymentService.post_confirm. rewrite Hp. constructor.
  - destruct (payment_intents db !! id) as [p|] eqn:Hp.
    + rewrite (capture_outcome id now db p Hp).
      case_bool_decide; simpl; by constructor.
    + unfold PaymentService.post_capture. rewrite Hp. constructor.
  - destruct (payment_intents db !! id) as [p|] eqn:Hp.
    + rewrite (refund_outcome id now req db p Hp).
      case_bool_decide; simpl; by constructor.
    + unfold PaymentService.post_refund. rewrite Hp. constructor.
Qed.

Lemma serve_cons c cs db : serve (c :: cs) db = serve cs (perform c db).
Proof. reflexivity. Qed.

(** An invariant of every way of writing is an invariant of every sequence
    of requests. *)
Lemma serve_ind (P : Db → Db → Prop) :
  (∀ db, P db db) →
  (∀ db1 db2 db3, P db1 db2 → written db2 db3 → P db1 db3) →
  ∀ cs db, P db (serve cs db).
Proof.
  intros Hrefl Hstep cs.
  induction cs as [| c cs IH] using rev_ind; intros db; [apply Hrefl |].
  unfold serve. rewrite foldl_app. simpl.
  eapply Hstep; [apply IH | apply perform_written].
Qed.

(** X22. Over any sequence of requests to the two services nothing is deleted
    and nothing but status and update time is rewritten: every booking is
    still there with its player, coach, start, duration, time zone and creation
    time, every payment intent with its booking, provider, amount, currency,
    provider id and creation time, and users and coaches are untouched. *)
Theorem rows_outlive_every_request cs db :
  users (serve cs db) = users db
  ∧ coaches (serve cs db) = coaches db
  ∧ (∀ id b, bookings db !! id = Some b →
       ∃ b', bookings (serve cs db) !! id = Some b' ∧ booked b' = booked b)
  ∧ (∀ pid p, payment_intents db !! pid = Some p →
       ∃ p', payment_intents (serve cs db) !! pid = Some p'
             ∧ fixed_columns p' = fixed_columns p).
Proof.
  revert cs db.
  apply (serve_ind (λ db db',
    users db' = users db ∧ coaches db' = coaches db
    ∧ (∀ id b, bookings db !! id = Some b →
         ∃ b', bookings db' !! id = Some b' ∧ booked b' = booked b)
    ∧ (∀ pid p, payment_intents db !! pid = Some p →
         ∃ p', payment_intents db' !! pid = Some p'
               ∧ fixed_columns p' = fixed_columns p))).
  - intros db. repeat split; eauto.
  - intros db1 db2 db3 (Hu & Hc & Hb & Hp) Hw.
    destruct Hw as [| id b Hfresh _ _ _ | id b st now Hlook _
                   | pid p Hfresh _ _ | pid p st now Hlook]; simpl.
    + done.
    + repeat split; [done.. | | done].
      intros id0 b0 H0. destruct (Hb id0 b0 H0) as (b' & Hb' & Heq).
      exists b'. split; [| done]. rewrite lookup_insert_ne; [done | congruence].
    + repeat split; [done.. | | done].
      intros id0 b0 H0. destruct (Hb id0 b0 H0) as (b' & Hb' & Heq).
      destruct (decide (id = id0)) as [<- | Hne].
      * eexists. rewrite lookup_insert_eq. split; [done |].
        assert (b' = b) as -> by congruence. by rewrite <- Heq.
      * exists b'. by rewrite lookup_insert_ne.
    + repeat split; [done.. |].
      intros pid0 p0 H0. destruct (Hp pid0 p0 H0) as (p' & Hp' & Heq).
      exists p'. split; [| done]. rewrite lookup_insert_ne; [done | congruence].
    + repeat split; [done.. |].
      intros pid0 p0 H0. destruct (Hp pid0 p0 H0) as (p' & Hp' & Heq).
      destruct (decide (pid = pid0)) as [<- | Hne].
      * eexists. rewrite lookup_insert_eq. split; [done |].
        assert (p' = p) as -> by congruence. by rewrite <- Heq.
      * exists p'. by rewrite lookup_insert_ne.
Qed.

Lemma rows_outlive_every_request_witness :
  let db := Sample.with_intent authorized in
  let cs := [CancelBooking Sample.booking1 Sample.t10h
               (SessionService.mkCancel None None);
             UpdateStatus Sample.booking1 Sample.t10h
               (SessionService.mkUpdateStatus (Some "completed") None);
             Capture Sample.intent1 Sample.t10h;
             Refund Sample.intent1 Sample.t10h
               (PaymentService.mkRefund (Some 20%Q) None)] in
  ∃ b', bookings (serve cs db) !! Sample.booking1 = Some b'
        ∧ booked b' = booked (Sample.booking_at Sample.t10h 60 confirmed).
Proof.
  cbv zeta.
  destruct (rows_outlive_every_request
              [CancelBooking Sample.booking1 Sample.t10h
                 (SessionService.mkCancel None None);
               UpdateStatus Sample.booking1 Sample.t10h
                 (SessionService.mkUpdateStatus (Some "completed") None);
               Capture Sample.intent1 Sample.t10h;
               Refund Sample.intent1 Sample.t10h
                 (PaymentService.mkRefund (Some 20%Q) None)]
              (Sample.with_intent authorized)) as (_ & _ & H & _).
  exact (H Sample.booking1 (Sample.booking_at Sample.t10h 60 confirmed) eq_refl).
Defined.

(** X23. The foreign keys hold throughout: if every booking points at an existing
    player and coach and every payment intent at an existing booking, the
    same is true after any sequence of requests. *)
Theorem foreign_keys_hold_throughout cs db :
  referential_integrity db → referential_integrity (serve cs db).
Proof.
  revert cs db.
  apply (serve_ind (λ db db', referential_integrity db → referential_integrity db')).
  - done.
  - intros db1 db2 db3 IH Hw Hri. specialize (IH Hri). clear Hri.
    destruct IH as [Hb Hp].
    destruct Hw as [| id b Hfresh Hpl Hco _ | id b st now Hlook _
                   | pid p Hfresh Hbk _ | pid p st now Hlook]; simpl.
    + by split.
    + split; simpl.
      * intros id0 b0 H0. destruct (decide (id = id0)) as [<- | Hne].
        -- rewrite lookup_insert_eq in H0. by injection H0 as <-.
        -- rewrite lookup_insert_ne in H0 by done. eauto.
      * intros pid0 p0 H0. destruct (Hp pid0 p0 H0) as [bk Hbk].
        exists bk. rewrite lookup_insert_ne; [done | congruence].
    + split; simpl.
      * intros id0 b0 H0. destruct (decide (id = id0)) as [<- | Hne].
        -- rewrite lookup_insert_eq in H0. injection H0 as <-. simpl. eauto.
        -- rewrite lookup_insert_ne in H0 by done. eauto.
      * intros pid0 p0 H0. destruct (Hp pid0 p0 H0) as [bk Hbk].
        destruct (decide (id = PaymentIntent.booking_id p0)) as [<- | Hne].
        -- rewrite lookup_insert_eq. eauto.
        -- rewrite lookup_insert_ne by done. eauto.
    + split; simpl; [done |].
      intros pid0 p0 H0. destruct (decide (pid = pid0)) as [<- | Hne].
      * rewrite lookup_insert_eq in H0. by injection H0 as <-.
      * rewrite lookup_insert_ne in H0 by done. eauto.
    + split; simpl; [done |].
      intros pid0 p0 H0. destruct (decide (pid = pid0)) as [<- | Hne].
      * rewrite lookup_insert_eq in H0. injection H0 as <-. simpl. eauto.
      * rewrite lookup_insert_ne in H0 by done. eauto.
Qed.

Lemma sample_integrity : referential_integrity (Sample.with_intent authorized).
Proof.
  split.
  - intros id b Hb. unfold Sample.with_intent in Hb. simpl in Hb.
    apply lookup_singleton_Some in Hb as [_ <-]. simpl.
    split; by apply elem_of_singleton.
  - intros pid p Hp. unfold Sample.with_intent in Hp. simpl in Hp.
    apply lookup_singleton_Some in Hp as [_ <-]. simpl.
    eexists. apply lookup_singleton_eq.
Defined.

Lemma foreign_keys_hold_throughout_witness :
  referential_integrity
    (serve [Capture Sample.intent1 Sample.t10h;
            CreateBooking Sample.booking2 Sample.t10h
              (Sample.create (Sample.t10h + Sample.hours 5) None);
            CreateIntent Sample.booking2 1 2 3
              (PaymentIntents.mkCreate (Some Sample.booking2) (Some 20%Q) None None)]
           (Sample.with_intent authorized)).
Proof.
  apply (foreign_keys_hold_throughout _ (Sample.with_intent authorized)).
  exact sample_integrity.
Defined.

(** X24. No request writes the status pending: if no booking is pending, none is
    after any sequence of requests.  Starting from an empty table, a booking is
    never seen pending. *)
Theorem no_booking_becomes_pending cs db :
  (∀ id b, bookings db !! id = Some b → Booking.status b ≠ pending) →
  ∀ id b, bookings (serve cs db) !! id = Some b → Booking.status b ≠ pending.
Proof.
  revert cs db.
  apply (serve_ind (λ db db',
    (∀ id b, bookings db !! id = Some b → Booking.status b ≠ pending) →
    ∀ id b, bookings db' !! id = Some b → Booking.status b ≠ pending)).
  - done.
  - intros db1 db2 db3 IH Hw H1. specialize (IH H1). clear H1.
    destruct Hw as [| id b Hfresh _ _ Hst | id b st now Hlook Hne
                   | pid p _ _ _ | pid p st now _]; simpl; try done.
    + intros id0 b0 H0. destruct (decide (id = id0)) as [<- | Hid].
      * rewrite lookup_insert_eq in H0. injection H0 as <-. by rewrite Hst.
      * rewrite lookup_insert_ne in H0 by done. eauto.
    + intros id0 b0 H0. destruct (decide (id = id0)) as [<- | Hid].
      * rewrite lookup_insert_eq in H0. by injection H0 as <-.
      * rewrite lookup_insert_ne in H0 by done. eauto.
Qed.

Lemma no_booking_becomes_pending_witness :
  let db := serve [CreateBooking Sample.booking1 Sample.t10h
                     (Sample.create (Sample.t10h + Sample.hours 5) None);
                   CancelBooking Sample.booking1 Sample.t10h
                     (SessionService.mkCancel None None);
                   UpdateStatus Sample.booking1 Sample.t10h
                     (SessionService.mkUpdateStatus (Some "pending") None)]
                  Sample.empty in
  ∃ b, bookings db !! Sample.booking1 = Some b ∧ Booking.status b ≠ pending.
Proof.
  cbv zeta. eexists. split; [reflexivity |].
  apply (no_booking_becomes_pending
           [CreateBooking Sample.booking1 Sample.t10h
              (Sample.create (Sample.t10h + Sample.hours 5) None);
            CancelBooking Sample.booking1 Sample.t10h
              (SessionService.mkCancel None None);
            UpdateStatus Sample.booking1 Sample.t10h
              (SessionService.mkUpdateStatus (Some "pending") None)]
           Sample.empty) with (id := Sample.booking1).
  - intros id b Hb. unfold Sample.empty in Hb. simpl in Hb.
    by rewrite lookup_empty in Hb.
  - reflexivity.
Defined.

End Sequences.

(** * Across the two services *)

Section AcrossServices.
Import SessionService.

(** X8. The session service never reaches the payments: creating a booking,
    changing its status and cancelling it, refund flag or not, leave every
    payment intent as it is and call no payment provider. *)
Theorem bookings_never_move_money bookingId id now req ureq creq db :
  let quiet (o : Outcome) :=
    payment_intents (db_after o) = payment_intents db
    ∧ filter is_provider_call (effects o) = [] in
  quiet (post_bookings bookingId now req db)
  ∧ quiet (put_booking_status id now ureq db)
  ∧ quiet (post_booking_cancel id now creq db).
Proof.
  cbv zeta. split; [| split].
  - unfold post_bookings.
    destruct (post_bookings_check req db) as [o | p c s d tz] eqn:E.
    + apply check_keeps_db in E as [-> ->]. done.
    + destruct (insert_outcome bookingId now p c s d tz db)
        as [(_ & _ & _ & -> & ->) | (_ & -> & ->)]; done.
  - destruct (us_status ureq) as [str|] eqn:Hreq.
    + destruct (includes validStatuses str) eqn:Hin.
      * destruct (put_status_valid id now ureq db str Hreq Hin) as (s & _ & _ & ->).
        by destruct (bookings db !! id).
      * unfold put_booking_status. rewrite Hreq, Hin.
        by destruct (negb (truthy (Some str))).
    + unfold put_booking_status. by rewrite Hreq.
  - destruct (bookings db !! id) as [b|] eqn:Hb.
    + rewrite (cancel_outcome id now creq db b Hb). by destruct (_ && _).
    + unfold post_booking_cancel. by rewrite Hb.
Qed.

(** X9. GET /bookings/:id after POST /bookings.  The booking just created is
    found exactly when its coach has a user whose row exists; a coach without
    a user hides the booking behind a 404.  When it is found, the row returned
    is the row created. *)
Theorem created_booking_is_found_through_its_coach bookingId now req dir db :
  Directory.agrees dir db →
  let o := post_bookings bookingId now req db in
  code (response o) = 201 →
  ∃ row crow,
    body (response o) = JCreated bookingId confirmed row
    ∧ Directory.coach_rows dir !! Booking.coach_id row = Some crow
    ∧ (is_Some (get_booking bookingId dir (db_after o))
       ↔ ∃ u, Directory.user_id crow = Some u
              ∧ is_Some (Directory.emails dir !! u))
    ∧ (∀ v, get_booking bookingId dir (db_after o) = Some v →
            bv_booking v = row ∧ coach_name v = Directory.display_name crow).
Proof.
  intros [Hco Hus]. cbv zeta. intros H201.
  assert (Hw : ∃ p c s d tz,
             post_bookings_check req db = ToInsert p c s d tz
             ∧ insert_booking db bookingId (Booking.mk p c s d confirmed tz now now)
               = inr (db_after (post_bookings bookingId now req db))
             ∧ response (post_bookings bookingId now req db)
               = mkResponse 201
                   (JCreated bookingId confirmed
                      (Booking.mk p c s d confirmed tz now now))).
  { revert H201. unfold post_bookings.
    destruct (post_bookings_check req db) as [o | p c s d tz] eqn:E.
    - destruct (decide (missing_field req)) as [Hm | Hm].
      + rewrite (check_missing _ _ Hm) in E. by injection E as <-.
      + destruct (check_complete req db Hm) as (p & c & s & _ & _ & _ & E').
        rewrite E' in E. case_bool_decide; [| done]. by injection E as <-.
    - unfold post_bookings_insert.
      destruct (insert_booking db bookingId _) as [e | db'] eqn:Ei; [done |].
      intros _. by exists p, c, s, d, tz. }
  destruct Hw as (p & c & s & d & tz & _ & Hins & Hresp).
  apply insert_booking_inr_keys in Hins as (Hfresh & Hp & Hc & Hdb).
  simpl in Hp, Hc.
  assert (Hcrow : is_Some (Directory.coach_rows dir !! c)).
  { apply elem_of_dom. by rewrite Hco. }
  assert (Hpl : is_Some (Directory.emails dir !! p)).
  { apply elem_of_dom. by rewrite Hus. }
  destruct Hcrow as [crow Hcrow]. destruct Hpl as [e2 He2].
  eexists _, crow. rewrite Hresp, Hdb. simpl.
  split; [reflexivity |]. split; [exact Hcrow |].
  unfold get_booking. simpl. rewrite lookup_insert_eq. simpl.
  rewrite Hcrow. simpl.
  destruct (Directory.user_id crow) as [u|]; simpl.
  - destruct (Directory.emails dir !! u) as [e1|] eqn:He1; simpl.
    + rewrite He2. simpl. split; [| by intros v [= <-]].
      split; [intros _; exists u; by rewrite He1 | intros _; by eexists].
    + split; [| done]. split; [by intros [? ?] |].
      intros (u' & [= <-] & [? ?]). congruence.
  - split; [| done]. split; [by intros [? ?] | by intros (u' & ? & _)].
Qed.

Lemma created_booking_is_found_through_its_coach_witness :
  let dir := Directory.mk {[Sample.coach := Directory.mkCoach None "Pro Coach"]}
               {[Sample.player := "player@example.com"]} in
  let o := post_bookings Sample.booking1 Sample.t10h
             (Sample.create (Sample.t10h + Sample.hours 5) None) Sample.empty in
  code (response o) = 201
  ∧ get_booking Sample.booking1 dir (db_after o) = None.
Proof.
  cbv zeta. split; [reflexivity |].
  destruct (created_booking_is_found_through_its_coach Sample.booking1 Sample.t10h
              (Sample.create (Sample.t10h + Sample.hours 5) None)
              (Directory.mk {[Sample.coach := Directory.mkCoach None "Pro Coach"]}
                 {[Sample.player := "player@example.com"]})
              Sample.empty)
    as (row & crow & _ & Hcrow & Hiff & _).
  - split; simpl.
    + apply dom_singleton_L.
    + apply dom_singleton_L.
  - reflexivity.
  - destruct (get_booking _ _ _) as [v|] eqn:E; [| reflexivity].
    exfalso.
    destruct (proj1 Hiff (ex_intro _ v eq_refl)) as (u & Hu & _).
    simpl in Hcrow. apply lookup_singleton_Some in Hcrow as [_ <-].
    discriminate Hu.
Defined.

End AcrossServices.

Section Interleavings.
Import SessionService InFlight.

Lemma step_keeps_bookings now t db id0 b0 :
  bookings db !! id0 = Some b0 → bookings (step now t db).2 !! id0 = Some b0.
Proof.
  intros Hb. destruct t as [bookingId req | bookingId p c s d tz | r]; simpl.
  - destruct (post_bookings_check req db) as [o | p c s d tz] eqn:E; simpl.
    + apply check_keeps_db in E as [-> _]. done.
    + done.
  - destruct (insert_outcome bookingId now p c s d tz db)
      as [(_ & _ & Hfresh & -> & _) | (_ & -> & _)]; [| done].
    simpl. rewrite lookup_insert_ne; [done | congruence].
  - done.
Qed.

(** X10. Whatever the order in which the statements of the requests in flight
    run, a booking that is stored stays stored, unchanged: concurrent
    creations can add bookings side by side but never overwrite one. *)
Theorem interleaving_never_overwrites sched ts db id0 b0 :
  bookings db !! id0 = Some b0 →
  bookings (run sched ts db).2 !! id0 = Some b0.
Proof.
  revert ts db. induction sched as [| [i now] sched IH]; intros ts db Hb; [done |].
  simpl. destruct (ts !! i) as [t|]; [| by apply IH].
  pose proof (step_keeps_bookings now t db id0 b0 Hb) as Hstep.
  destruct (step now t db) as [t' db']. by apply IH.
Qed.

Lemma interleaving_never_overwrites_witness :
  let db := Sample.with_booking Sample.t10h 60 confirmed in
  let req := Sample.create Sample.t10h None in
  bookings
    (run [(0%nat, 1); (1%nat, 2); (1%nat, 3); (0%nat, 4)]
         [Received Sample.booking2 req; Received Sample.intent1 req] db).2
    !! Sample.booking1
  = Some (Sample.booking_at Sample.t10h 60 confirmed).
Proof.
  cbv zeta.
  apply (interleaving_never_overwrites
           [(0%nat, 1); (1%nat, 2); (1%nat, 3); (0%nat, 4)]
           [Received Sample.booking2 (Sample.create Sample.t10h None);
            Received Sample.intent1 (Sample.create Sample.t10h None)]
           (Sample.with_booking Sample.t10h 60 confirmed)).
  reflexivity.
Defined.

End Interleavings.

